(** * ABI sanity check of the Mihomo bridge header: [c_sanity_check.c]

    The translation unit declares the cross-boundary structs and constants,
    pins five struct sizes with compile-time assertions, defines four dummy
    callbacks that render their argument with [printf], and has a [main]
    that prints a five-line report and returns 0.

    What C leaves to the implementation is a parameter here:
    - the value of [sizeof(T)] for each struct ([Target]); the usual layout
      algorithm over a data model gives the instances ([target_of]);
    - where the loader puts the four callbacks ([LoadMap]);
    - the text [printf] produces for [%p] ([pointer_text]).
    The preprocessor constants are gathered in a record ([Registry]) whose
    instance [mihomo_h] holds the values of the [#define] lines. *)

From Stdlib Require Import ZArith List String Ascii Bool Lia.
From Stdlib Require Import DecimalString HexadecimalString.
From Stdlib Require DecimalPos DecimalN DecimalZ HexadecimalPos HexadecimalN.
Import ListNotations.

Open Scope Z_scope.
Open Scope string_scope.

(* ================================================================== *)
(** ** Text utilities used by the model of [printf] and by the report
       parser of the statements *)
(* ================================================================== *)

Module Text.

(** [#define LINE "\n"] *)
Definition newline : ascii := ascii_of_nat 10.
Definition LINE : string := String newline EmptyString.

(** The NUL byte that ends a C string. *)
Definition NUL : ascii := ascii_of_nat 0.

(** Decimal text of a signed value, as [%d] prints it. *)
Definition dec_int (v : Z) : string :=
  DecimalString.NilZero.string_of_int (Z.to_int v).

(** Decimal text of an unsigned value, as [%zu] and [%llu] print it. *)
Definition dec_unsigned (v : Z) : string :=
  DecimalString.NilZero.string_of_uint (N.to_uint (Z.to_N v)).

(** The common rendering of [%p] for a non-null pointer: [0x] and the
    address in lower-case hexadecimal. *)
Definition hex_pointer (a : Z) : string :=
  "0x" ++ HexadecimalString.NilZero.string_of_uint (N.to_hex_uint (Z.to_N a)).

(** Does character [c] occur in [s]? *)
Fixpoint occurs (c : ascii) (s : string) : bool :=
  match s with
  | EmptyString => false
  | String x r => Ascii.eqb x c || occurs c r
  end.

(** The characters a decimal rendering is made of. *)
Definition numeric_char (c : ascii) : bool :=
  Ascii.eqb c "-" || ((48 <=? nat_of_ascii c)%nat && (nat_of_ascii c <=? 57)%nat).

(** The characters of the [hex_pointer] rendering. *)
Definition hex_char (c : ascii) : bool :=
  Ascii.eqb c "x"
  || ((48 <=? nat_of_ascii c)%nat && (nat_of_ascii c <=? 57)%nat)
  || ((97 <=? nat_of_ascii c)%nat && (nat_of_ascii c <=? 102)%nat).

(** Is [p] a prefix of [s]? *)
Fixpoint starts_with (p s : string) : bool :=
  match p, s with
  | EmptyString, _ => true
  | String a p', String b s' => Ascii.eqb a b && starts_with p' s'
  | String _ _, EmptyString => false
  end.

(** Does [p] occur in [s] as a substring? *)
Fixpoint contains (p s : string) : bool :=
  starts_with p s
  || match s with
     | EmptyString => false
     | String _ r => contains p r
     end.

(** The pieces of [s] between occurrences of the delimiter [c]; a
    delimiter in last position closes the last piece. *)
Fixpoint split_on (c : ascii) (s : string) : list string :=
  match s with
  | EmptyString => []
  | String x r =>
      if Ascii.eqb x c then EmptyString :: split_on c r
      else match split_on c r with
           | [] => [String x EmptyString]
           | p :: ps => String x p :: ps
           end
  end.

(** The lines of a byte stream. *)
Definition lines (s : string) : list string := split_on newline s.

(** [s] cut at the first occurrence of [c]. *)
Fixpoint break_at (c : ascii) (s : string) : option (string * string) :=
  match s with
  | EmptyString => None
  | String x r =>
      if Ascii.eqb x c then Some (EmptyString, r)
      else match break_at c r with
           | Some (a, b) => Some (String x a, b)
           | None => None
           end
  end.

(** A [name=value] field. *)
Definition key_value (f : string) : string * string :=
  match break_at "=" f with
  | Some kv => kv
  | None => (f, EmptyString)
  end.

(** A report line [TAG:name=value name=value ...], read by position:
    the tag, then the fields in the order they are printed. *)
Definition parse_line (l : string) : option (string * list (string * string)) :=
  match break_at ":" l with
  | Some (tag, body) => Some (tag, map key_value (split_on " " body))
  | None => None
  end.

(** The bytes of a C string: everything before the first NUL of the
    object the pointer points into; [None] when the object holds no NUL
    and the read would run past its end. *)
Fixpoint c_string (bytes : list ascii) : option string :=
  match bytes with
  | [] => None
  | b :: r =>
      if Ascii.eqb b NUL then Some EmptyString
      else match c_string r with
           | Some s => Some (String b s)
           | None => None
           end
  end.

End Text.

Import Text.

(* ================================================================== *)
(** ** The declarations of the header *)
(* ================================================================== *)

(** The [#define] block: result codes and lifecycle states. *)
Record Registry : Type := {
  MIHOMO_OK : Z;
  MIHOMO_ERR_INIT : Z;
  MIHOMO_ERR_INVALID_ARG : Z;
  MIHOMO_ERR_RUNTIME : Z;
  MIHOMO_ERR_NOT_INITIALIZED : Z;
  MIHOMO_STATE_STOPPED : Z;
  MIHOMO_STATE_RUNNING : Z
}.

(** The values the source gives them. *)
Definition mihomo_h : Registry := {|
  MIHOMO_OK := 0;
  MIHOMO_ERR_INIT := 1;
  MIHOMO_ERR_INVALID_ARG := 2;
  MIHOMO_ERR_RUNTIME := 3;
  MIHOMO_ERR_NOT_INITIALIZED := 4;
  MIHOMO_STATE_STOPPED := 0;
  MIHOMO_STATE_RUNNING := 2
|}.

(** The result codes and the lifecycle states, in declaration order. *)
Definition result_codes (k : Registry) : list Z :=
  [MIHOMO_OK k; MIHOMO_ERR_INIT k; MIHOMO_ERR_INVALID_ARG k;
   MIHOMO_ERR_RUNTIME k; MIHOMO_ERR_NOT_INITIALIZED k].

Definition state_codes (k : Registry) : list Z :=
  [MIHOMO_STATE_STOPPED k; MIHOMO_STATE_RUNNING k].

(** The struct types of the header. *)
Inductive entity : Type :=
| MihomoVersion
| MihomoTrafficSample
| MihomoMemorySample
| MihomoLogEntry
| MihomoConnection
| MihomoConnections
| MihomoConfigBuffer
| MihomoInitOptions.

Module Layout.

Inductive scalar : Type :=
| Char | UInt8 | UInt16 | UInt64 | Int | SizeT | Pointer.

Inductive ctype : Type :=
| Scalar (s : scalar)
| Array (s : scalar) (n : Z).

Definition struct : Type := list (string * ctype).

(** The field lists, in declaration order. *)
Definition fields_of (e : entity) : struct :=
  match e with
  | MihomoVersion => [("version", Array Char 64)]
  | MihomoTrafficSample =>
      [("timestamp_ms", Scalar UInt64); ("up", Scalar UInt64);
       ("down", Scalar UInt64)]
  | MihomoMemorySample =>
      [("timestamp_ms", Scalar UInt64); ("inuse", Scalar UInt64)]
  | MihomoLogEntry =>
      [("timestamp_ms", Scalar UInt64); ("level", Array Char 16);
       ("payload", Array Char 512)]
  | MihomoConnection =>
      [("id", Array Char 64); ("metadata_host", Array Char 256);
       ("metadata_dst_port", Scalar UInt16); ("rule", Array Char 256);
       ("start_time_ms", Scalar UInt64)]
  | MihomoConnections =>
      [("connections", Scalar Pointer); ("count", Scalar SizeT)]
  | MihomoConfigBuffer =>
      [("data", Scalar Pointer); ("length", Scalar SizeT)]
  | MihomoInitOptions =>
      [("home_dir", Scalar Pointer); ("config_file", Scalar Pointer);
       ("external_controller", Scalar Pointer); ("secret", Scalar Pointer);
       ("log_level", Scalar Int)]
  end.

(** Size and alignment of the scalar types on a platform. *)
Record DataModel : Type := {
  scalar_size : scalar -> Z;
  scalar_align : scalar -> Z
}.

Definition sizeof (dm : DataModel) (t : ctype) : Z :=
  match t with
  | Scalar s => scalar_size dm s
  | Array s n => n * scalar_size dm s
  end.

Definition alignof (dm : DataModel) (t : ctype) : Z :=
  match t with
  | Scalar s => scalar_align dm s
  | Array s _ => scalar_align dm s
  end.

Definition align_up (off a : Z) : Z := (off + a - 1) / a * a.

(** One field placed after the fields so far: the running offset and the
    largest alignment seen. *)
Definition place (dm : DataModel) (acc : Z * Z) (f : string * ctype) : Z * Z :=
  let '(off, al) := acc in
  (align_up off (alignof dm (snd f)) + sizeof dm (snd f),
   Z.max al (alignof dm (snd f))).

(** The size of a struct: fields in order, each at the next offset its
    alignment allows, and the total rounded up to the struct's alignment. *)
Definition struct_sizeof (dm : DataModel) (s : struct) : Z :=
  let '(off, al) := fold_left (place dm) s (0, 1) in
  align_up off al.

(** 64-bit data model with natural alignment. *)
Definition LP64 : DataModel := {|
  scalar_size := fun s =>
    match s with
    | Char | UInt8 => 1 | UInt16 => 2 | Int => 4
    | UInt64 | SizeT | Pointer => 8
    end;
  scalar_align := fun s =>
    match s with
    | Char | UInt8 => 1 | UInt16 => 2 | Int => 4
    | UInt64 | SizeT | Pointer => 8
    end
|}.

(** 32-bit data model in which 8-byte integers are aligned to 4 inside
    structs. *)
Definition ILP32_align4 : DataModel := {|
  scalar_size := fun s =>
    match s with
    | Char | UInt8 => 1 | UInt16 => 2 | UInt64 => 8
    | Int | SizeT | Pointer => 4
    end;
  scalar_align := fun s =>
    match s with
    | Char | UInt8 => 1 | UInt16 => 2
    | UInt64 | Int | SizeT | Pointer => 4
    end
|}.

End Layout.

(** What [sizeof(T)] evaluates to for each struct of the header. *)
Definition Target : Type := entity -> Z.

(** The target a data model induces through the layout algorithm. *)
Definition target_of (dm : Layout.DataModel) : Target :=
  fun e => Layout.struct_sizeof dm (Layout.fields_of e).

Definition lp64 : Target := target_of Layout.LP64.
Definition ilp32_align4 : Target := target_of Layout.ILP32_align4.

(** A target on which only the log entry is laid out differently, at 544
    bytes. *)
Definition drifted_log_entry : Target :=
  fun e => match e with MihomoLogEntry => 544 | _ => lp64 e end.

(* ------------------------------------------------------------------ *)
(** *** The compile-time assertions *)

(** [#define STATIC_CHECK(expr) typedef char static_assertion_##__LINE__[(expr)?1:-1]]:
    the length of the array type the typedef declares. The [##] keeps
    [__LINE__] unexpanded, so the five typedefs share one name; repeating
    a typedef is allowed when the type is the same, as it is ([char[1]])
    when every check holds. *)
Definition STATIC_CHECK (expr : bool) : Z := if expr then 1 else -1.

(** The five assertions of the translation unit, in source order. *)
Definition static_assertions (t : Target) : list Z :=
  [STATIC_CHECK (t MihomoVersion =? 64)%Z;
   STATIC_CHECK (t MihomoTrafficSample =? 24)%Z;
   STATIC_CHECK (t MihomoMemorySample =? 16)%Z;
   STATIC_CHECK (t MihomoLogEntry =? 536)%Z;
   STATIC_CHECK (t MihomoConnection =? 592)%Z].

(** An array type needs a positive length. *)
Definition valid_array_length (n : Z) : bool := (0 <? n)%Z.

(** The translation unit is accepted when every typedef is well formed. *)
Definition compiles (t : Target) : bool :=
  forallb valid_array_length (static_assertions t).

(** The entities the assertions cover and the size each is pinned to, as
    the specification's table lists them. *)
Definition layout_descriptor_set : list entity :=
  [MihomoVersion; MihomoTrafficSample; MihomoMemorySample; MihomoLogEntry;
   MihomoConnection].

Definition declared_size (e : entity) : Z :=
  match e with
  | MihomoVersion => 64
  | MihomoTrafficSample => 24
  | MihomoMemorySample => 16
  | MihomoLogEntry => 536
  | MihomoConnection => 592
  | _ => 0
  end.

(* ================================================================== *)
(** ** Standard output and [printf] *)
(* ================================================================== *)

(** A computation that writes to standard output: from the bytes written so
    far to a result and the bytes written after it; [None] is undefined
    behaviour. *)
Definition IO (A : Type) : Type := string -> option (A * string).

Definition ret {A : Type} (a : A) : IO A := fun out => Some (a, out).

Definition bind {A B : Type} (m : IO A) (f : A -> IO B) : IO B :=
  fun out =>
    match m out with
    | Some (a, out') => f a out'
    | None => None
    end.

Notation "m ;; k" := (bind m (fun _ => k))
  (at level 61, right associativity).

(** An argument of a variadic call, by the type it is passed at. *)
Inductive arg : Type :=
| AInt (v : Z)
| ASize (v : Z)
| AULongLong (v : Z)
| AString (object : list ascii)
| APointer (a : Z).

(** [(unsigned long long)x] *)
Definition cast_ull (x : Z) : Z := x mod 2 ^ 64.

(** Where the loader placed the four callbacks. *)
Inductive symbol : Type := sym_cb_tx | sym_cb_mem | sym_cb_log | sym_cb_state.

Definition LoadMap : Type := symbol -> Z.

(** One conversion: its text in front of the rest of the output. *)
Definition emit (piece : option string) (rest : option string) : option string :=
  match piece, rest with
  | Some p, Some r => Some (p ++ r)
  | _, _ => None
  end.

Section Libc.

(** The text of [%p], which the C library chooses. *)
Variable pointer_text : Z -> string.

(** The text [printf] writes for a format and its arguments. The
    conversions are those the source uses: [%d], [%zu], [%llu], [%s] and
    [%p]; a conversion without an argument of its type is undefined. *)
Fixpoint printf (fmt : string) (args : list arg) : option string :=
  match fmt with
  | EmptyString => Some EmptyString
  | String "%" (String "d" k) =>
      match args with
      | AInt v :: tl => emit (Some (dec_int v)) (printf k tl)
      | _ => None
      end
  | String "%" (String "z" (String "u" k)) =>
      match args with
      | ASize v :: tl => emit (Some (dec_unsigned v)) (printf k tl)
      | _ => None
      end
  | String "%" (String "l" (String "l" (String "u" k))) =>
      match args with
      | AULongLong v :: tl => emit (Some (dec_unsigned v)) (printf k tl)
      | _ => None
      end
  | String "%" (String "s" k) =>
      match args with
      | AString object :: tl => emit (c_string object) (printf k tl)
      | _ => None
      end
  | String "%" (String "p" k) =>
      match args with
      | APointer a :: tl => emit (Some (pointer_text a)) (printf k tl)
      | _ => None
      end
  | String "%" _ => None
  | String c k => emit (Some (String c EmptyString)) (printf k args)
  end.

(** [#define OUT(...) do { printf(__VA_ARGS__); } while (0)] *)
Definition OUT (fmt : string) (args : list arg) : IO unit :=
  fun out =>
    match printf fmt args with
    | Some text => Some (tt, out ++ text)
    | None => None
    end.

(* ---------------------------------------------------------------- *)
(** *** The values the callbacks receive *)

Record TrafficSample : Type := {
  tx_timestamp_ms : Z;
  up : Z;
  down : Z
}.

Record MemorySample : Type := {
  mem_timestamp_ms : Z;
  inuse : Z
}.

(** [level] is [char[16]] and [payload] is [char[512]], one after the
    other in the struct. *)
Record LogEntry : Type := {
  log_timestamp_ms : Z;
  level : list ascii;
  payload : list ascii
}.

(** A [char*] into the entry: the bytes from the field to the end of the
    struct. *)
Definition level_ptr (e : LogEntry) : list ascii := (level e ++ payload e)%list.
Definition payload_ptr (e : LogEntry) : list ascii := payload e.

(* ---------------------------------------------------------------- *)
(** *** The dummy callbacks; a pointer argument is [None] when NULL *)

Definition cb_tx (s : option TrafficSample) (c : Z) : IO unit :=
  match s with
  | Some s =>
      OUT ("NET:TX=%llu RX=%llu" ++ LINE)
          [AULongLong (cast_ull (up s)); AULongLong (cast_ull (down s))]
  | None => ret tt
  end.

Definition cb_mem (s : option MemorySample) (c : Z) : IO unit :=
  match s with
  | Some s => OUT ("MEM:USE=%llu" ++ LINE) [AULongLong (cast_ull (inuse s))]
  | None => ret tt
  end.

Definition cb_log (s : option LogEntry) (c : Z) : IO unit :=
  match s with
  | Some s =>
      OUT ("LOG:%s:%s" ++ LINE) [AString (level_ptr s); AString (payload_ptr s)]
  | None => ret tt
  end.

Definition cb_state (s : Z) (c : Z) : IO unit :=
  OUT ("STATE:%d" ++ LINE) [AInt s].

(* ---------------------------------------------------------------- *)
(** *** [main] *)

Definition main (k : Registry) (t : Target) (l : LoadMap) : IO Z :=
  OUT ("MIHOMO:ABI" ++ LINE) [] ;;
  OUT ("SIZE:ver=%zu tx=%zu mem=%zu log=%zu conn=%zu opt=%zu" ++ LINE)
      [ASize (t MihomoVersion); ASize (t MihomoTrafficSample);
       ASize (t MihomoMemorySample); ASize (t MihomoLogEntry);
       ASize (t MihomoConnection); ASize (t MihomoInitOptions)] ;;
  OUT ("ENUM:ok=%d init=%d halt=%d run=%d" ++ LINE)
      [AInt (MIHOMO_OK k); AInt (MIHOMO_ERR_INIT k);
       AInt (MIHOMO_STATE_STOPPED k); AInt (MIHOMO_STATE_RUNNING k)] ;;
  OUT ("CBPTR:tx=%p mem=%p log=%p state=%p" ++ LINE)
      [APointer (l sym_cb_tx); APointer (l sym_cb_mem);
       APointer (l sym_cb_log); APointer (l sym_cb_state)] ;;
  OUT ("DECL:link" ++ LINE) [] ;;
  ret 0.

(* ---------------------------------------------------------------- *)
(** *** Building and running the checker *)

Inductive outcome : Type :=
| NoExecutable                                (* the build is rejected *)
| Undefined                                   (* undefined behaviour *)
| Exited (status : Z) (stdout : string).

(** The exit status the host sees for a value returned from [main]. *)
Definition exit_status (r : Z) : Z := Z.land r 255.

Definition run_process (k : Registry) (t : Target) (l : LoadMap) : outcome :=
  if compiles t then
    match main k t l EmptyString with
    | Some (r, out) => Exited (exit_status r) out
    | None => Undefined
    end
  else NoExecutable.

(** The lines of the report [main] writes, without their newline. *)
Definition size_line (t : Target) : string :=
  "SIZE:ver=" ++ dec_unsigned (t MihomoVersion)
  ++ " tx=" ++ dec_unsigned (t MihomoTrafficSample)
  ++ " mem=" ++ dec_unsigned (t MihomoMemorySample)
  ++ " log=" ++ dec_unsigned (t MihomoLogEntry)
  ++ " conn=" ++ dec_unsigned (t MihomoConnection)
  ++ " opt=" ++ dec_unsigned (t MihomoInitOptions).

Definition enum_line (k : Registry) : string :=
  "ENUM:ok=" ++ dec_int (MIHOMO_OK k)
  ++ " init=" ++ dec_int (MIHOMO_ERR_INIT k)
  ++ " halt=" ++ dec_int (MIHOMO_STATE_STOPPED k)
  ++ " run=" ++ dec_int (MIHOMO_STATE_RUNNING k).

Definition cbptr_line (l : LoadMap) : string :=
  "CBPTR:tx=" ++ pointer_text (l sym_cb_tx)
  ++ " mem=" ++ pointer_text (l sym_cb_mem)
  ++ " log=" ++ pointer_text (l sym_cb_log)
  ++ " state=" ++ pointer_text (l sym_cb_state).

End Libc.

(** A load map and samples used as concrete inputs. *)
Definition sample_load : LoadMap :=
  fun s =>
    match s with
    | sym_cb_tx => 4096
    | sym_cb_mem => 4160
    | sym_cb_log => 4224
    | sym_cb_state => 4288
    end.

(** The same image loaded 64 KiB higher. *)
Definition slid_load : LoadMap := fun s => sample_load s + 65536.

Definition traffic_1000_2000 (ts : Z) : TrafficSample :=
  {| tx_timestamp_ms := ts; up := 1000; down := 2000 |}.

(** Line [i] (from 0) of what a computation wrote. *)
Definition report_line {A : Type} (i : nat) (r : option (A * string)) : option string :=
  match r with
  | Some (_, out) => nth_error (lines out) i
  | None => None
  end.

(* ------------------------------------------------------------------ *)
(** *** Readings of the specification that the code is compared with *)

(** A failed verification shows as a non-zero exit status of the run. *)
Definition nonzero_exit_on_failure
    (pt : Z -> string) (k : Registry) (t : Target) (l : LoadMap) : Prop :=
  compiles t = false ->
  exists st out, run_process pt k t l = Exited st out /\ st <> 0.

(** A drifted entity is reported by a run that prints both sizes and exits
    with a non-zero status. *)
Definition drift_reported
    (pt : Z -> string) (k : Registry) (t : Target) (l : LoadMap)
    (actual expected : string) : Prop :=
  exists st out,
    run_process pt k t l = Exited st out /\ st <> 0 /\
    contains actual out = true /\ contains expected out = true.

(** The enum line carries the value of every constant of the registry, in
    declaration order. *)
Definition enum_line_lists_registry
    (pt : Z -> string) (k : Registry) (t : Target) (l : LoadMap) : Prop :=
  exists line tag fields,
    report_line 2 (main pt k t l "") = Some line /\
    parse_line line = Some (tag, fields) /\
    map snd fields = map dec_int (result_codes k ++ state_codes k)%list.

(** Any two runs of one build write the same bytes. *)
Definition byte_identical_runs
    (pt : Z -> string) (k : Registry) (t : Target) : Prop :=
  forall l1 l2 : LoadMap, main pt k t l1 "" = main pt k t l2 "".

(* ------------------------------------------------------------------ *)
(** *** Vocabulary of the statements about the callbacks *)

(** Does the object hold a NUL byte? *)
Definition has_nul (bytes : list ascii) : bool :=
  existsb (fun b => Ascii.eqb b NUL) bytes.

(** The bytes in front of the first NUL; all of them when there is none. *)
Fixpoint before_nul (bytes : list ascii) : string :=
  match bytes with
  | [] => EmptyString
  | b :: r => if Ascii.eqb b NUL then EmptyString else String b (before_nul r)
  end.

(** Standard output holds whole lines only: it is empty or ends with a
    newline. *)
Fixpoint complete (s : string) : bool :=
  match s with
  | EmptyString => true
  | String x EmptyString => Ascii.eqb x newline
  | String _ r => complete r
  end.

(** The structs whose size [main] prints. *)
Definition printed_entities : list entity :=
  [MihomoVersion; MihomoTrafficSample; MihomoMemorySample; MihomoLogEntry;
   MihomoConnection; MihomoInitOptions].

(** The lines the numeric callbacks write, without their newline. *)
Definition tx_line (s : TrafficSample) : string :=
  "NET:TX=" ++ dec_unsigned (cast_ull (up s))
  ++ " RX=" ++ dec_unsigned (cast_ull (down s)).

Definition mem_line (s : MemorySample) : string :=
  "MEM:USE=" ++ dec_unsigned (cast_ull (inuse s)).

Definition state_line (s : Z) : string := "STATE:" ++ dec_int s.

(** The line the log callback writes for a printed level and payload. *)
Definition log_line (lvl pl : string) : string := "LOG:" ++ lvl ++ ":" ++ pl.

(** A text stored in a buffer of [n] bytes, the rest filled with NUL. *)
Definition padded (text : string) (n : nat) : list ascii :=
  (list_ascii_of_string text ++ repeat NUL (n - String.length text))%list.

(** A log entry with both texts terminated. *)
Definition terminated_entry : LogEntry :=
  {| log_timestamp_ms := 0;
     level := padded "info" 16;
     payload := padded "started" 512 |}.

(** A log entry whose level fills its 16 bytes. *)
Definition unterminated_level_entry : LogEntry :=
  {| log_timestamp_ms := 0;
     level := padded "0123456789abcdef" 16;
     payload := padded "up" 512 |}.

(** The natural 64-bit target with other sizes for the two structs that
    [main] does not print. *)
Definition lp64_other_lists : Target :=
  fun e =>
    match e with
    | MihomoConnections => 24
    | MihomoConfigBuffer => 12
    | _ => lp64 e
    end.

(* ================================================================== *)
(** ** Facts about the text utilities *)
(* ================================================================== *)

Module TextFacts.

Lemma append_assoc (a b c : string) : (a ++ b) ++ c = a ++ (b ++ c).
Proof.
  induction a as [|x a IH]; simpl; [reflexivity | now rewrite IH].
Qed.

Lemma append_nil_r (a : string) : a ++ "" = a.
Proof.
  induction a as [|x a IH]; simpl; [reflexivity | now rewrite IH].
Qed.

Lemma occurs_app (c : ascii) (a b : string) :
  occurs c (a ++ b) = occurs c a || occurs c b.
Proof.
  induction a as [|x a IH]; simpl; [reflexivity|].
  now rewrite IH, orb_assoc.
Qed.

(** A piece free of the delimiter, followed by the delimiter, is the
    first piece of the split. *)
Lemma split_on_app (c : ascii) (a r : string) :
  occurs c a = false ->
  split_on c (a ++ String c r) = a :: split_on c r.
Proof.
  induction a as [|x a IH]; simpl; intros Hfree.
  - now rewrite Ascii.eqb_refl.
  - apply orb_false_iff in Hfree as [Hx Ha].
    rewrite Hx, (IH Ha). reflexivity.
Qed.

(** A non-empty piece free of the delimiter is the only piece. *)
Lemma split_on_free (c : ascii) (a : string) :
  occurs c a = false -> a <> "" -> split_on c a = [a].
Proof.
  induction a as [|x a IH]; simpl; intros Hfree Hne; [congruence|].
  apply orb_false_iff in Hfree as [Hx Ha]. rewrite Hx.
  destruct a as [|y a'].
  - reflexivity.
  - rewrite (IH Ha); [reflexivity | discriminate].
Qed.

Lemma break_at_app (c : ascii) (a r : string) :
  occurs c a = false ->
  break_at c (a ++ String c r) = Some (a, r).
Proof.
  induction a as [|x a IH]; simpl; intros Hfree.
  - now rewrite Ascii.eqb_refl.
  - apply orb_false_iff in Hfree as [Hx Ha].
    rewrite Hx, (IH Ha). reflexivity.
Qed.

(** Decimal renderings are made of digits and the minus sign. *)
Lemma digits_numeric (d : Decimal.uint) (c : ascii) :
  occurs c (DecimalString.NilEmpty.string_of_uint d) = true ->
  numeric_char c = true.
Proof.
  induction d; cbn [occurs DecimalString.NilEmpty.string_of_uint];
    intros H; try discriminate;
    apply orb_true_iff in H as [H|H]; auto;
    apply Ascii.eqb_eq in H; subst c; reflexivity.
Qed.

Lemma uint_numeric (d : Decimal.uint) (c : ascii) :
  occurs c (DecimalString.NilZero.string_of_uint d) = true ->
  numeric_char c = true.
Proof.
  destruct d; try apply digits_numeric.
  cbn [occurs DecimalString.NilZero.string_of_uint].
  intros H. apply orb_true_iff in H as [H|H]; [|discriminate].
  apply Ascii.eqb_eq in H; subst c; reflexivity.
Qed.

Lemma dec_unsigned_free (c : ascii) (v : Z) :
  numeric_char c = false -> occurs c (dec_unsigned v) = false.
Proof.
  intros Hc. destruct (occurs c (dec_unsigned v)) eqn:E; [|reflexivity].
  apply uint_numeric in E. congruence.
Qed.

Lemma dec_int_free (c : ascii) (v : Z) :
  numeric_char c = false -> occurs c (dec_int v) = false.
Proof.
  intros Hc. destruct (occurs c (dec_int v)) eqn:E; [|reflexivity].
  unfold dec_int in E.
  destruct (Z.to_int v) as [d|d];
    cbn [occurs DecimalString.NilZero.string_of_int] in E.
  - apply uint_numeric in E. congruence.
  - apply orb_true_iff in E as [E|E].
    + apply Ascii.eqb_eq in E; subst c. discriminate.
    + apply uint_numeric in E. congruence.
Qed.

(** The hexadecimal pointer text is made of [x], digits and [a]-[f]. *)
Lemma hex_digits_chars (d : Hexadecimal.uint) (c : ascii) :
  occurs c (HexadecimalString.NilEmpty.string_of_uint d) = true ->
  hex_char c = true.
Proof.
  induction d; cbn [occurs HexadecimalString.NilEmpty.string_of_uint];
    intros H; try discriminate;
    apply orb_true_iff in H as [H|H]; auto;
    apply Ascii.eqb_eq in H; subst c; reflexivity.
Qed.

Lemma hex_pointer_free (c : ascii) (a : Z) :
  hex_char c = false -> occurs c (hex_pointer a) = false.
Proof.
  intros Hc. destruct (occurs c (hex_pointer a)) eqn:E; [|reflexivity].
  unfold hex_pointer in E. rewrite occurs_app in E.
  apply orb_true_iff in E as [E|E].
  - cbn [occurs] in E. rewrite orb_false_r in E.
    apply orb_true_iff in E as [E|E];
      apply Ascii.eqb_eq in E; subst c; discriminate.
  - destruct (N.to_hex_uint (Z.to_N a));
      cbn [occurs HexadecimalString.NilZero.string_of_uint] in E;
      try (apply hex_digits_chars in E; congruence).
    rewrite orb_false_r in E. apply Ascii.eqb_eq in E; subst c; discriminate.
Qed.

Lemma hex_pointer_one_line (a : Z) : occurs newline (hex_pointer a) = false.
Proof. apply hex_pointer_free. reflexivity. Qed.

Lemma dec_int_nonempty (v : Z) : dec_int v <> "".
Proof.
  unfold dec_int. destruct (Z.to_int v) as [d|d]; simpl; [|discriminate].
  destruct d; simpl; discriminate.
Qed.

End TextFacts.

Import TextFacts.

(** Normal form of nested appends under literal prefixes. *)
Ltac flatten := repeat first [rewrite append_assoc | progress (cbn [append])].

(* ================================================================== *)
(** ** The compile-time assertions and the layout *)
(* ================================================================== *)

Lemma STATIC_CHECK_valid (b : bool) :
  valid_array_length (STATIC_CHECK b) = b.
Proof. destruct b; reflexivity. Qed.

(** The translation unit is accepted exactly when the five pinned structs
    have their declared size. *)
Lemma compiles_iff_declared (t : Target) :
  compiles t = true <->
  (forall e, In e layout_descriptor_set -> t e = declared_size e).
Proof.
  unfold compiles, static_assertions. cbn [forallb].
  rewrite !STATIC_CHECK_valid, !andb_true_iff, !Z.eqb_eq.
  split.
  - intros (Hv & Ht & Hm & Hl & Hc & _) e He.
    cbn in He. intuition (subst e; assumption).
  - intros H. repeat split; apply H; cbn; tauto.
Qed.

Lemma drift_rejected (t : Target) (e : entity) :
  In e layout_descriptor_set -> t e <> declared_size e -> compiles t = false.
Proof.
  intros He Hne. destruct (compiles t) eqn:E; [|reflexivity].
  exfalso. apply Hne. now apply compiles_iff_declared.
Qed.

(** Each assertion looks at its own struct only. *)
Lemma static_assertions_pointwise (t : Target) :
  static_assertions t =
  map (fun e => if (t e =? declared_size e)%Z then 1 else -1)
      layout_descriptor_set.
Proof. reflexivity. Qed.

(** Any data model with one-byte characters and naturally aligned 2- and
    8-byte integers lays the five structs out at their declared sizes. *)
Lemma natural_alignment_accepted (dm : Layout.DataModel) :
  Layout.scalar_size dm Layout.Char = 1 ->
  Layout.scalar_align dm Layout.Char = 1 ->
  Layout.scalar_size dm Layout.UInt16 = 2 ->
  Layout.scalar_align dm Layout.UInt16 = 2 ->
  Layout.scalar_size dm Layout.UInt64 = 8 ->
  Layout.scalar_align dm Layout.UInt64 = 8 ->
  compiles (target_of dm) = true.
Proof.
  intros Hc Hca Hs Hsa Hq Hqa.
  apply compiles_iff_declared. intros e He.
  cbn in He.
  unfold target_of, Layout.struct_sizeof.
  intuition (subst e; cbn;
             rewrite ?Hc, ?Hca, ?Hs, ?Hsa, ?Hq, ?Hqa; reflexivity).
Qed.

Lemma lp64_accepted : compiles lp64 = true.
Proof.
  apply (natural_alignment_accepted Layout.LP64); reflexivity.
Qed.

(* ================================================================== *)
(** ** What [main] writes *)
(* ================================================================== *)

Lemma lines_cons (a r : string) :
  occurs newline a = false -> lines (a ++ LINE ++ r) = a :: lines r.
Proof. intros H. unfold lines, LINE. cbn [append]. now apply split_on_app. Qed.

Lemma size_line_one_line (t : Target) : occurs newline (size_line t) = false.
Proof.
  unfold size_line. rewrite !occurs_app.
  rewrite !dec_unsigned_free by reflexivity. reflexivity.
Qed.

Lemma enum_line_one_line (k : Registry) : occurs newline (enum_line k) = false.
Proof.
  unfold enum_line. rewrite !occurs_app.
  rewrite !dec_int_free by reflexivity. reflexivity.
Qed.

Section Report.

Variable pointer_text : Z -> string.

(** The bytes [main] appends to standard output, and its return value. *)
Lemma main_writes (k : Registry) (t : Target) (l : LoadMap) (out : string) :
  main pointer_text k t l out =
  Some (0, out ++ "MIHOMO:ABI" ++ LINE ++ size_line t ++ LINE
               ++ enum_line k ++ LINE
               ++ cbptr_line pointer_text l ++ LINE ++ "DECL:link" ++ LINE).
Proof.
  unfold main, bind, OUT, ret. cbn.
  unfold size_line, enum_line, cbptr_line, LINE.
  flatten. reflexivity.
Qed.

Lemma main_report (k : Registry) (t : Target) (l : LoadMap) :
  main pointer_text k t l "" =
  Some (0, "MIHOMO:ABI" ++ LINE ++ size_line t ++ LINE
           ++ enum_line k ++ LINE
           ++ cbptr_line pointer_text l ++ LINE ++ "DECL:link" ++ LINE).
Proof. apply main_writes. Qed.

(** The first three lines, whatever [%p] prints afterwards. *)
Lemma main_first_lines (k : Registry) (t : Target) (l : LoadMap) :
  exists out rest,
    main pointer_text k t l "" = Some (0, out) /\
    lines out = "MIHOMO:ABI" :: size_line t :: enum_line k :: rest.
Proof.
  eexists. eexists. split; [apply main_report|].
  rewrite (lines_cons "MIHOMO:ABI") by reflexivity.
  rewrite lines_cons by apply size_line_one_line.
  rewrite lines_cons by apply enum_line_one_line.
  reflexivity.
Qed.

(** Only the callback-pointer line depends on where the callbacks are
    loaded. *)
Lemma report_varies_only_in_cbptr_line (k : Registry) (t : Target) :
  exists head tail,
    forall l, main pointer_text k t l "" =
              Some (0, head ++ cbptr_line pointer_text l ++ tail).
Proof.
  exists ("MIHOMO:ABI" ++ LINE ++ size_line t ++ LINE ++ enum_line k ++ LINE),
         (LINE ++ "DECL:link" ++ LINE).
  intros l. rewrite main_report. unfold LINE. flatten. reflexivity.
Qed.

End Report.

(* ================================================================== *)
(** ** Reading the enum line back by position *)
(* ================================================================== *)

Lemma key_value_field (name v : string) :
  occurs "=" name = false -> key_value (name ++ String "=" v) = (name, v).
Proof. intros H. unfold key_value. now rewrite break_at_app. Qed.

Lemma field_no_space (name : string) (v : Z) :
  occurs " " name = false ->
  occurs " " (name ++ String "=" (dec_int v)) = false.
Proof.
  intros H. rewrite occurs_app, H. cbn [occurs orb].
  rewrite dec_int_free by reflexivity. reflexivity.
Qed.

Lemma parse_enum_line (k : Registry) :
  parse_line (enum_line k) =
  Some ("ENUM", [("ok", dec_int (MIHOMO_OK k));
                 ("init", dec_int (MIHOMO_ERR_INIT k));
                 ("halt", dec_int (MIHOMO_STATE_STOPPED k));
                 ("run", dec_int (MIHOMO_STATE_RUNNING k))]).
Proof.
  change (enum_line k) with
    ("ENUM" ++ String ":"
       (("ok" ++ String "=" (dec_int (MIHOMO_OK k))) ++ String " "
       (("init" ++ String "=" (dec_int (MIHOMO_ERR_INIT k))) ++ String " "
       (("halt" ++ String "=" (dec_int (MIHOMO_STATE_STOPPED k))) ++ String " "
        ("run" ++ String "=" (dec_int (MIHOMO_STATE_RUNNING k))))))).
  unfold parse_line.
  rewrite break_at_app by reflexivity.
  rewrite !split_on_app by (apply field_no_space; reflexivity).
  rewrite split_on_free;
    [| apply field_no_space; reflexivity | discriminate].
  cbn [map].
  rewrite !key_value_field by reflexivity.
  reflexivity.
Qed.

Section PointerLine.

Variable pointer_text : Z -> string.
Hypothesis pointer_one_line : forall a, occurs newline (pointer_text a) = false.
Hypothesis pointer_one_word : forall a, occurs " " (pointer_text a) = false.

Lemma pointer_field_no_space (name : string) (a : Z) :
  occurs " " name = false ->
  occurs " " (name ++ String "=" (pointer_text a)) = false.
Proof.
  intros H. rewrite occurs_app, H. cbn [occurs orb].
  rewrite pointer_one_word. reflexivity.
Qed.

Lemma parse_cbptr_line (l : LoadMap) :
  parse_line (cbptr_line pointer_text l) =
  Some ("CBPTR", [("tx", pointer_text (l sym_cb_tx));
                  ("mem", pointer_text (l sym_cb_mem));
                  ("log", pointer_text (l sym_cb_log));
                  ("state", pointer_text (l sym_cb_state))]).
Proof.
  change (cbptr_line pointer_text l) with
    ("CBPTR" ++ String ":"
       (("tx" ++ String "=" (pointer_text (l sym_cb_tx))) ++ String " "
       (("mem" ++ String "=" (pointer_text (l sym_cb_mem))) ++ String " "
       (("log" ++ String "=" (pointer_text (l sym_cb_log))) ++ String " "
        ("state" ++ String "=" (pointer_text (l sym_cb_state))))))).
  unfold parse_line.
  rewrite break_at_app by reflexivity.
  rewrite !split_on_app by (apply pointer_field_no_space; reflexivity).
  rewrite split_on_free;
    [| apply pointer_field_no_space; reflexivity | discriminate].
  cbn [map].
  rewrite !key_value_field by reflexivity.
  reflexivity.
Qed.

(** Two reports that agree byte for byte print the same text for each
    callback address. *)
Lemma same_report_same_pointer_text
    (k : Registry) (t : Target) (l1 l2 : LoadMap) :
  main pointer_text k t l1 "" = main pointer_text k t l2 "" ->
  forall s, pointer_text (l1 s) = pointer_text (l2 s).
Proof.
  rewrite !main_report. intros E.
  assert (cbptr_line pointer_text l1 = cbptr_line pointer_text l2) as Hcb.
  { apply (f_equal (report_line 3)) in E. cbn [report_line] in E.
    rewrite !(lines_cons "MIHOMO:ABI") in E by reflexivity.
    rewrite !(lines_cons (size_line t)) in E by apply size_line_one_line.
    rewrite !(lines_cons (enum_line k)) in E by apply enum_line_one_line.
    rewrite !lines_cons in E
      by (unfold cbptr_line; rewrite !occurs_app, !pointer_one_line;
          reflexivity).
    cbn [nth_error] in E. congruence. }
  apply (f_equal parse_line) in Hcb. rewrite !parse_cbptr_line in Hcb.
  injection Hcb as Htx Hmem Hlog Hstate.
  intros []; assumption.
Qed.

(** Line by line, what [main] writes when the pointer text is one line. *)
Lemma main_report_line (k : Registry) (t : Target) (l : LoadMap) (i : nat) :
  report_line i (main pointer_text k t l "") =
  nth_error ["MIHOMO:ABI"; size_line t; enum_line k;
             cbptr_line pointer_text l; "DECL:link"] i.
Proof.
  rewrite main_report. cbn [report_line].
  rewrite (lines_cons "MIHOMO:ABI") by reflexivity.
  rewrite lines_cons by apply size_line_one_line.
  rewrite lines_cons by apply enum_line_one_line.
  rewrite lines_cons
    by (unfold cbptr_line; rewrite !occurs_app, !pointer_one_line;
        reflexivity).
  reflexivity.
Qed.

(** The callback-pointer line gives back the text of each address. *)
Lemma same_cbptr_line_same_text (l1 l2 : LoadMap) :
  cbptr_line pointer_text l1 = cbptr_line pointer_text l2 ->
  forall s, pointer_text (l1 s) = pointer_text (l2 s).
Proof.
  intros E. apply (f_equal parse_line) in E.
  rewrite !parse_cbptr_line in E.
  injection E as Htx Hmem Hlog Hstate.
  intros []; assumption.
Qed.

End PointerLine.

(* ================================================================== *)
(** ** The claims *)
(* ================================================================== *)

Section Claims.

Variable pointer_text : Z -> string.

(** C1. On every build the compiler accepts, each entity of the layout
    descriptor set (version, traffic sample, memory sample, log entry,
    connection) measures exactly its declared size (64, 24, 16, 536 and
    592 bytes); the process then exits with status 0 and its sizes line
    shows those five sizes. *)
Theorem declared_sizes_measured_and_reported
    (k : Registry) (t : Target) (l : LoadMap)
    (Hbuild : compiles t = true) :
  (forall e, In e layout_descriptor_set -> t e = declared_size e) /\
  run_process pointer_text k t l =
    Exited 0
      ("MIHOMO:ABI" ++ LINE
       ++ "SIZE:ver=64 tx=24 mem=16 log=536 conn=592 opt="
       ++ dec_unsigned (t MihomoInitOptions) ++ LINE
       ++ enum_line k ++ LINE
       ++ cbptr_line pointer_text l ++ LINE ++ "DECL:link" ++ LINE).
Proof.
  pose proof (proj1 (compiles_iff_declared t) Hbuild) as Hsz.
  split; [exact Hsz|].
  unfold run_process. rewrite Hbuild, main_report.
  unfold size_line.
  rewrite (Hsz MihomoVersion), (Hsz MihomoTrafficSample),
    (Hsz MihomoMemorySample), (Hsz MihomoLogEntry),
    (Hsz MihomoConnection) by (cbn; tauto).
  reflexivity.
Qed.

(** C2, as amended. The exit status is 0 in every run: [main] returns 0
    unconditionally. A failed layout check is a compile-time error, so
    there is then no executable and no exit status; a process that runs
    has passed all five layout checks. *)
Theorem exit_status_is_zero_when_built
    (k : Registry) (t : Target) (l : LoadMap) :
  match run_process pointer_text k t l with
  | Exited st _ =>
      st = 0 /\ forall e, In e layout_descriptor_set -> t e = declared_size e
  | NoExecutable =>
      exists e, In e layout_descriptor_set /\ t e <> declared_size e
  | Undefined => False
  end.
Proof.
  unfold run_process. rewrite main_report.
  destruct (compiles t) eqn:E.
  - split; [reflexivity | now apply compiles_iff_declared].
  - unfold compiles, static_assertions in E. cbn [forallb] in E.
    rewrite !STATIC_CHECK_valid in E.
    destruct (t MihomoVersion =? 64)%Z eqn:E1;
      [|exists MihomoVersion; split;
        [cbn; tauto | now apply Z.eqb_neq]].
    destruct (t MihomoTrafficSample =? 24)%Z eqn:E2;
      [|exists MihomoTrafficSample; split;
        [cbn; tauto | now apply Z.eqb_neq]].
    destruct (t MihomoMemorySample =? 16)%Z eqn:E3;
      [|exists MihomoMemorySample; split;
        [cbn; tauto | now apply Z.eqb_neq]].
    destruct (t MihomoLogEntry =? 536)%Z eqn:E4;
      [|exists MihomoLogEntry; split;
        [cbn; tauto | now apply Z.eqb_neq]].
    destruct (t MihomoConnection =? 592)%Z eqn:E5;
      [discriminate
      |exists MihomoConnection; split;
        [cbn; tauto | now apply Z.eqb_neq]].
Qed.

(** C3, as amended. The enum line lists the values of four constants of
    the registry, under the names ok, init, halt and run in that order:
    the result codes "ok" and "init error" and the lifecycle states
    "stopped" and "running". It reads [ENUM:ok=0 init=1 halt=0 run=2]. *)
Theorem enum_line_lists_four_constants (t : Target) (l : LoadMap) :
  exists out line,
    main pointer_text mihomo_h t l "" = Some (0, out) /\
    nth_error (lines out) 2 = Some line /\
    line = "ENUM:ok=0 init=1 halt=0 run=2" /\
    parse_line line =
      Some ("ENUM", [("ok", dec_int (MIHOMO_OK mihomo_h));
                     ("init", dec_int (MIHOMO_ERR_INIT mihomo_h));
                     ("halt", dec_int (MIHOMO_STATE_STOPPED mihomo_h));
                     ("run", dec_int (MIHOMO_STATE_RUNNING mihomo_h))]).
Proof.
  destruct (main_first_lines pointer_text mihomo_h t l)
    as (out & rest & Hrun & Hlines).
  exists out, (enum_line mihomo_h).
  split; [exact Hrun|].
  split; [now rewrite Hlines|].
  split; [reflexivity | apply parse_enum_line].
Qed.

(** C4, as amended. When an entity's actual size differs from its
    declared size, the assertion for that entity declares an array of
    length -1, the translation unit is rejected and no process runs:
    there is no report and no exit status. Each of the five assertions
    depends on its own entity only. *)
Theorem drift_stops_the_build
    (k : Registry) (t : Target) (l : LoadMap) (e : entity)
    (He : In e layout_descriptor_set)
    (Hdrift : t e <> declared_size e) :
  In (-1) (static_assertions t) /\
  static_assertions t =
    map (fun e' => if (t e' =? declared_size e')%Z then 1 else -1)
        layout_descriptor_set /\
  run_process pointer_text k t l = NoExecutable.
Proof.
  split; [|split].
  - rewrite static_assertions_pointwise.
    apply in_map_iff. exists e. split; [|exact He].
    apply Z.eqb_neq in Hdrift. now rewrite Hdrift.
  - apply static_assertions_pointwise.
  - unfold run_process. now rewrite (drift_rejected t e He Hdrift).
Qed.

(** C5. When the text of a pointer holds no newline, [main] writes
    exactly five lines, in this order: the ABI marker, the sizes line
    (the five pinned structs and the init options, by name), the enum
    line, the callback-pointer line (the address of each callback) and
    the declared/linked marker; it writes nothing else. *)
Theorem report_is_five_lines
    (Hp : forall a, occurs newline (pointer_text a) = false)
    (k : Registry) (t : Target) (l : LoadMap) :
  exists out,
    main pointer_text k t l "" = Some (0, out) /\
    out = "MIHOMO:ABI" ++ LINE ++ size_line t ++ LINE ++ enum_line k ++ LINE
          ++ cbptr_line pointer_text l ++ LINE ++ "DECL:link" ++ LINE /\
    lines out =
      ["MIHOMO:ABI"; size_line t; enum_line k;
       cbptr_line pointer_text l; "DECL:link"].
Proof.
  eexists. split; [apply main_report|]. split; [reflexivity|].
  rewrite (lines_cons "MIHOMO:ABI") by reflexivity.
  rewrite lines_cons by apply size_line_one_line.
  rewrite lines_cons by apply enum_line_one_line.
  rewrite lines_cons.
  - reflexivity.
  - unfold cbptr_line. rewrite !occurs_app, !Hp. reflexivity.
Qed.

(** C6. Whatever integer values the constants have, the enum line lists
    "ok", "init error", "stopped" and "running" in exactly that order,
    under the names ok, init, halt and run: read by position, the line
    gives back the four values. *)
Theorem enum_line_order_is_fixed
    (k : Registry) (t : Target) (l : LoadMap) :
  exists out line,
    main pointer_text k t l "" = Some (0, out) /\
    nth_error (lines out) 2 = Some line /\
    parse_line line =
      Some ("ENUM", [("ok", dec_int (MIHOMO_OK k));
                     ("init", dec_int (MIHOMO_ERR_INIT k));
                     ("halt", dec_int (MIHOMO_STATE_STOPPED k));
                     ("run", dec_int (MIHOMO_STATE_RUNNING k))]).
Proof.
  destruct (main_first_lines pointer_text k t l)
    as (out & rest & Hrun & Hlines).
  exists out, (enum_line k).
  split; [exact Hrun|].
  split; [now rewrite Hlines | apply parse_enum_line].
Qed.

(** C7. Called with a non-null sample whose upload counter is 1000 and
    download counter is 2000, the traffic callback writes exactly one
    line, [NET:TX=1000 RX=2000], which holds both values. *)
Theorem cb_tx_renders_both_counters (ts c : Z) (out : string) :
  cb_tx pointer_text (Some (traffic_1000_2000 ts)) c out =
    Some (tt, out ++ "NET:TX=1000 RX=2000" ++ LINE) /\
  lines ("NET:TX=1000 RX=2000" ++ LINE) = ["NET:TX=1000 RX=2000"] /\
  contains "1000" "NET:TX=1000 RX=2000" = true /\
  contains "2000" "NET:TX=1000 RX=2000" = true.
Proof.
  split; [reflexivity|]. split; [reflexivity|]. split; reflexivity.
Qed.

(** C8, as amended. When the text of a pointer holds neither a newline
    nor a space, two runs of one build write byte-identical reports if
    and only if each of the four callback addresses has the same pointer
    text in both runs. The callback-pointer line is the only part of the
    report that depends on the load addresses: the report is a fixed
    head, that line and a fixed tail; every line other than the fourth is
    the same in the two runs, and the fourth lines are equal exactly when
    the pointer texts agree. Runs that agree in this way end alike. *)
Theorem report_identical_iff_same_pointer_text
    (Hline : forall a, occurs newline (pointer_text a) = false)
    (Hword : forall a, occurs " " (pointer_text a) = false)
    (k : Registry) (t : Target) (l1 l2 : LoadMap) :
  (exists head tail,
     forall l, main pointer_text k t l "" =
               Some (0, head ++ cbptr_line pointer_text l ++ tail)) /\
  (main pointer_text k t l1 "" = main pointer_text k t l2 ""
   <-> forall s, pointer_text (l1 s) = pointer_text (l2 s)) /\
  (forall i, i <> 3%nat ->
     report_line i (main pointer_text k t l1 "") =
     report_line i (main pointer_text k t l2 "")) /\
  (report_line 3 (main pointer_text k t l1 "") =
   report_line 3 (main pointer_text k t l2 "")
   <-> forall s, pointer_text (l1 s) = pointer_text (l2 s)) /\
  ((forall s, pointer_text (l1 s) = pointer_text (l2 s)) ->
   run_process pointer_text k t l1 = run_process pointer_text k t l2).
Proof.
  assert ((forall s, pointer_text (l1 s) = pointer_text (l2 s)) ->
          cbptr_line pointer_text l1 = cbptr_line pointer_text l2) as Hcb
    by (intros H; unfold cbptr_line; now rewrite !H).
  split; [apply report_varies_only_in_cbptr_line|].
  split; [|split; [|split]].
  - split.
    + apply (same_report_same_pointer_text pointer_text Hline Hword).
    + intros H. rewrite !main_report. now rewrite (Hcb H).
  - intros i Hi. rewrite !(main_report_line pointer_text Hline).
    destruct i as [|[|[|[|i]]]]; try reflexivity. congruence.
  - rewrite !(main_report_line pointer_text Hline). cbn [nth_error]. split.
    + intros E. apply (same_cbptr_line_same_text pointer_text Hword).
      congruence.
    + intros H. now rewrite (Hcb H).
  - intros H. unfold run_process. rewrite !main_report. now rewrite (Hcb H).
Qed.

(** C9. The traffic, memory and log callbacks write nothing when their
    sample pointer is NULL, and the state-change callback writes a
    [STATE:] line for every integer it receives. *)
Theorem null_samples_are_skipped_and_state_is_printed
    (c : Z) (out : string) :
  cb_tx pointer_text None c out = Some (tt, out) /\
  cb_mem pointer_text None c out = Some (tt, out) /\
  cb_log pointer_text None c out = Some (tt, out) /\
  forall s : Z,
    cb_state pointer_text s c out =
      Some (tt, out ++ "STATE:" ++ dec_int s ++ LINE).
Proof.
  split; [reflexivity|]. split; [reflexivity|]. split; [reflexivity|].
  intros s. unfold cb_state, OUT. cbn. reflexivity.
Qed.

End Claims.

(** C10. The result codes are 0, 1, 2, 3, 4 in declaration order (ok, init
    error, invalid argument, runtime error, not initialized); the
    lifecycle states are stopped = 0 and running = 2, so that 1 is no
    state and stopped equals the ok result code. *)
Theorem registry_values :
  result_codes mihomo_h = [0; 1; 2; 3; 4] /\
  state_codes mihomo_h = [0; 2] /\
  ~ In 1 (state_codes mihomo_h) /\
  MIHOMO_STATE_STOPPED mihomo_h = MIHOMO_OK mihomo_h.
Proof.
  split; [reflexivity|]. split; [reflexivity|]. split; [|reflexivity].
  cbn. intros [H|[H|[]]]; discriminate.
Qed.

(* ================================================================== *)
(** ** Concrete runs *)
(* ================================================================== *)

(** The natural 64-bit layout passes the assertions and the claim C1 holds
    of it. *)
Lemma declared_sizes_witness :
  compiles lp64 = true /\
  (forall e, In e layout_descriptor_set -> lp64 e = declared_size e) /\
  run_process hex_pointer mihomo_h lp64 sample_load =
    Exited 0
      ("MIHOMO:ABI" ++ LINE
       ++ "SIZE:ver=64 tx=24 mem=16 log=536 conn=592 opt="
       ++ dec_unsigned (lp64 MihomoInitOptions) ++ LINE
       ++ enum_line mihomo_h ++ LINE
       ++ cbptr_line hex_pointer sample_load ++ LINE ++ "DECL:link" ++ LINE).
Proof.
  split; [reflexivity|].
  apply (declared_sizes_measured_and_reported
           hex_pointer mihomo_h lp64 sample_load).
  reflexivity.
Defined.

(** With 8-byte integers aligned to 4 the connection struct measures 588
    bytes: its assertion fails, nothing is built, and so no run ends with
    a non-zero status. *)
Lemma failed_check_gives_no_exit_status :
  ilp32_align4 MihomoConnection = 588 /\
  static_assertions ilp32_align4 = [1; 1; 1; 1; -1] /\
  ~ nonzero_exit_on_failure hex_pointer mihomo_h ilp32_align4 sample_load.
Proof.
  split; [reflexivity|]. split; [reflexivity|].
  intros H. destruct H as (st & out & Hrun & _); [reflexivity|].
  vm_compute in Hrun. discriminate.
Qed.

(** The body of [main] has no failing path: on that same target it would
    still return 0. *)
Lemma main_returns_zero_on_rejected_target :
  exists out, main hex_pointer mihomo_h ilp32_align4 sample_load "" = Some (0, out).
Proof. eexists. apply main_report. Qed.

(** The enum line of a run has four fields, not the seven constants of the
    registry. *)
Lemma enum_line_omits_three_codes :
  ~ enum_line_lists_registry hex_pointer mihomo_h lp64 sample_load.
Proof.
  intros (line & tag & fields & Hline & Hparse & Hvalues).
  vm_compute in Hline. injection Hline as <-.
  vm_compute in Hparse. injection Hparse as <- <-.
  vm_compute in Hvalues. discriminate.
Qed.

(** A log entry of 544 bytes is caught by its assertion alone, and no run
    reports it. *)
Lemma drifted_log_entry_not_reported :
  drifted_log_entry MihomoLogEntry = 544 /\
  static_assertions drifted_log_entry = [1; 1; 1; -1; 1] /\
  ~ drift_reported hex_pointer mihomo_h drifted_log_entry sample_load
      "544" "536".
Proof.
  split; [reflexivity|]. split; [reflexivity|].
  intros (st & out & Hrun & _).
  vm_compute in Hrun. discriminate.
Qed.

Lemma drift_stops_the_build_witness :
  In MihomoLogEntry layout_descriptor_set /\
  drifted_log_entry MihomoLogEntry <> declared_size MihomoLogEntry /\
  run_process hex_pointer mihomo_h drifted_log_entry sample_load = NoExecutable.
Proof.
  assert (In MihomoLogEntry layout_descriptor_set) as He by (cbn; tauto).
  assert (drifted_log_entry MihomoLogEntry <> declared_size MihomoLogEntry)
    as Hd by (vm_compute; discriminate).
  split; [exact He|]. split; [exact Hd|].
  apply (drift_stops_the_build
           hex_pointer mihomo_h drifted_log_entry sample_load
           MihomoLogEntry He Hd).
Defined.

Lemma report_is_five_lines_witness :
  exists out,
    main hex_pointer mihomo_h lp64 sample_load "" = Some (0, out) /\
    out = "MIHOMO:ABI" ++ LINE ++ size_line lp64 ++ LINE
          ++ enum_line mihomo_h ++ LINE
          ++ cbptr_line hex_pointer sample_load ++ LINE ++ "DECL:link" ++ LINE /\
    lines out =
      ["MIHOMO:ABI"; size_line lp64; enum_line mihomo_h;
       cbptr_line hex_pointer sample_load; "DECL:link"].
Proof.
  apply (report_is_five_lines hex_pointer hex_pointer_one_line
           mihomo_h lp64 sample_load).
Defined.

(** The same build loaded 64 KiB higher prints another callback-pointer
    line. *)
Lemma load_address_changes_report :
  ~ byte_identical_runs hex_pointer mihomo_h lp64.
Proof.
  intros H. specialize (H sample_load slid_load).
  vm_compute in H. discriminate.
Qed.

(** The statement C8 at the usual pointer text and at two different load
    maps: the reports differ, in their fourth line only. *)
Lemma report_identical_iff_witness :
  (forall a, occurs newline (hex_pointer a) = false) /\
  (forall a, occurs " " (hex_pointer a) = false) /\
  (main hex_pointer mihomo_h lp64 sample_load "" =
   main hex_pointer mihomo_h lp64 slid_load ""
   <-> forall s, hex_pointer (sample_load s) = hex_pointer (slid_load s)) /\
  (forall i, i <> 3%nat ->
     report_line i (main hex_pointer mihomo_h lp64 sample_load "") =
     report_line i (main hex_pointer mihomo_h lp64 slid_load "")) /\
  (report_line 3 (main hex_pointer mihomo_h lp64 sample_load "") =
   report_line 3 (main hex_pointer mihomo_h lp64 slid_load "")
   <-> forall s, hex_pointer (sample_load s) = hex_pointer (slid_load s)).
Proof.
  assert (forall a, occurs " " (hex_pointer a) = false) as Hword
    by (intros a; apply hex_pointer_free; reflexivity).
  split; [exact hex_pointer_one_line|]. split; [exact Hword|].
  destruct (report_identical_iff_same_pointer_text
              hex_pointer hex_pointer_one_line Hword
              mihomo_h lp64 sample_load slid_load)
    as (_ & Hiff & Hother & Hfourth & _).
  split; [exact Hiff|]. split; [exact Hother | exact Hfourth].
Defined.

(** The report of the natural 64-bit build, byte for byte. *)
Example lp64_report :
  option_map (fun r => lines (snd r))
             (main hex_pointer mihomo_h lp64 sample_load "") =
  Some ["MIHOMO:ABI";
        "SIZE:ver=64 tx=24 mem=16 log=536 conn=592 opt=40";
        "ENUM:ok=0 init=1 halt=0 run=2";
        "CBPTR:tx=0x1000 mem=0x1040 log=0x1080 state=0x10c0";
        "DECL:link"].
Proof. reflexivity. Qed.

(** A log entry whose level fills its 16 bytes without a NUL is printed
    together with the payload that follows it in the struct. *)
Example cb_log_reads_through_level :
  cb_log hex_pointer
    (Some {| log_timestamp_ms := 0;
             level := list_ascii_of_string "0123456789abcdef";
             payload := (list_ascii_of_string "up" ++ [NUL])%list |})
    0 "" =
  Some (tt, "LOG:0123456789abcdefup:up" ++ LINE).
Proof. reflexivity. Qed.

Example cb_state_out_of_range :
  cb_state hex_pointer 1 0 "" = Some (tt, "STATE:1" ++ LINE) /\
  cb_state hex_pointer (-7) 0 "" = Some (tt, "STATE:-7" ++ LINE).
Proof. split; reflexivity. Qed.

(* ================================================================== *)
(** ** Decoding the rendered numbers *)
(* ================================================================== *)

Lemma append_cancel_l (a b c : string) : a ++ b = a ++ c -> b = c.
Proof.
  induction a as [|x a IH]; cbn [append]; intros H; [exact H|].
  injection H as H. auto.
Qed.

Lemma to_uint_nonnil (n : N) : N.to_uint n <> Decimal.Nil.
Proof.
  destruct n; cbn; [discriminate | apply DecimalPos.Unsigned.to_uint_nonnil].
Qed.

Lemma uint_text_inj (d d' : Decimal.uint) :
  d <> Decimal.Nil -> d' <> Decimal.Nil ->
  DecimalString.NilZero.string_of_uint d = DecimalString.NilZero.string_of_uint d' ->
  d = d'.
Proof.
  intros Hd Hd' E.
  pose proof (DecimalString.NilZero.usu d Hd) as H.
  rewrite E, (DecimalString.NilZero.usu d' Hd') in H. congruence.
Qed.

(** The decimal text of a non-negative value determines it. *)
Lemma dec_unsigned_inj (a b : Z) :
  0 <= a -> 0 <= b -> dec_unsigned a = dec_unsigned b -> a = b.
Proof.
  intros Ha Hb E. unfold dec_unsigned in E.
  apply uint_text_inj in E; try apply to_uint_nonnil.
  apply DecimalN.Unsigned.to_uint_inj in E.
  apply (f_equal Z.of_N) in E. now rewrite !Z2N.id in E.
Qed.

(** The signed decimal text determines the value. *)
Lemma dec_int_inj (a b : Z) : dec_int a = dec_int b -> a = b.
Proof.
  unfold dec_int. intros E. apply DecimalZ.to_int_inj.
  assert (forall z, Z.to_int z <> Decimal.Pos Decimal.Nil
                    /\ Z.to_int z <> Decimal.Neg Decimal.Nil) as Hnn.
  { intros [|p|p]; cbn; split; try discriminate;
      intros H; injection H as H;
      now apply DecimalPos.Unsigned.to_uint_nonnil in H. }
  pose proof (DecimalString.NilZero.isi _ (proj1 (Hnn a)) (proj2 (Hnn a))) as H.
  rewrite E, (DecimalString.NilZero.isi _ (proj1 (Hnn b)) (proj2 (Hnn b))) in H.
  congruence.
Qed.

(** So does the hexadecimal text of a non-negative address. *)
Lemma hex_pointer_inj (a b : Z) :
  0 <= a -> 0 <= b -> hex_pointer a = hex_pointer b -> a = b.
Proof.
  intros Ha Hb E. unfold hex_pointer in E. apply append_cancel_l in E.
  assert (forall n, N.to_hex_uint n <> Hexadecimal.Nil) as Hnn.
  { intros [|p]; cbn;
      [discriminate | apply HexadecimalPos.Unsigned.to_uint_nonnil]. }
  pose proof (HexadecimalString.NilZero.usu _ (Hnn (Z.to_N a))) as H.
  rewrite E, (HexadecimalString.NilZero.usu _ (Hnn (Z.to_N b))) in H.
  injection H as H. apply HexadecimalN.Unsigned.to_uint_inj in H.
  apply (f_equal Z.of_N) in H. now rewrite !Z2N.id in H.
Qed.

Lemma cast_ull_range (x : Z) : 0 <= cast_ull x.
Proof. unfold cast_ull. apply Z.mod_pos_bound. reflexivity. Qed.

(* ================================================================== *)
(** ** Lines of a stream written in several steps *)
(* ================================================================== *)

Lemma split_on_nonempty (c x : ascii) (r : string) :
  split_on c (String x r) <> [].
Proof.
  cbn [split_on]. destruct (Ascii.eqb x c); [discriminate|].
  destruct (split_on c r); discriminate.
Qed.

(** A stream of whole lines followed by more text: the lines of the one,
    then those of the other. *)
Lemma lines_app_complete (a b : string) :
  complete a = true -> lines (a ++ b) = (lines a ++ lines b)%list.
Proof.
  unfold lines. induction a as [|x a IH]; intros Hc; [reflexivity|].
  destruct a as [|y a'].
  - cbn [complete] in Hc. cbn [append split_on app]. rewrite Hc. reflexivity.
  - assert (complete (String y a') = true) as Hc' by exact Hc.
    specialize (IH Hc').
    remember (String y a') as r eqn:Er.
    cbn [append split_on]. rewrite IH.
    destruct (Ascii.eqb x newline); [reflexivity|].
    destruct (split_on newline r) as [|p ps] eqn:E; [|reflexivity].
    subst r. now apply split_on_nonempty in E.
Qed.

(** A text closed by the delimiter is one piece exactly when the
    delimiter does not occur in it. *)
Lemma one_piece_iff (c : ascii) (p : string) :
  List.length (split_on c (p ++ String c "")) = 1%nat <-> occurs c p = false.
Proof.
  split.
  - induction p as [|x p IH]; [reflexivity|].
    cbn [append split_on occurs].
    assert (split_on c (p ++ String c "") <> []) as Hne
      by (destruct p; cbn [append]; apply split_on_nonempty).
    destruct (Ascii.eqb x c) eqn:Ex.
    + cbn [List.length]. intros H. exfalso.
      destruct (split_on c (p ++ String c "")); [congruence | cbn in H; lia].
    + cbn [orb]. destruct (split_on c (p ++ String c "")) as [|q qs] eqn:E;
        [congruence|].
      cbn [List.length] in *. intros H. apply IH. exact H.
  - intros H. rewrite split_on_app by exact H. reflexivity.
Qed.

(* ================================================================== *)
(** ** Reading a C string out of an object *)
(* ================================================================== *)

Lemma c_string_spec (bytes : list ascii) :
  c_string bytes = if has_nul bytes then Some (before_nul bytes) else None.
Proof.
  induction bytes as [|b r IH]; [reflexivity|].
  cbn [c_string has_nul before_nul existsb].
  destruct (Ascii.eqb b NUL); [reflexivity|].
  cbn [orb]. rewrite IH. unfold has_nul.
  destruct (existsb _ r); reflexivity.
Qed.

Lemma has_nul_app (a b : list ascii) :
  has_nul (a ++ b) = has_nul a || has_nul b.
Proof. unfold has_nul. apply existsb_app. Qed.

(** Reading from the start of an object that another object follows. *)
Lemma before_nul_app (a b : list ascii) :
  before_nul (a ++ b) =
  if has_nul a then before_nul a
  else string_of_list_ascii a ++ before_nul b.
Proof.
  induction a as [|x a IH]; [reflexivity|].
  cbn [app before_nul has_nul existsb string_of_list_ascii].
  destruct (Ascii.eqb x NUL); [reflexivity|].
  cbn [orb]. rewrite IH. unfold has_nul.
  destruct (existsb _ a); reflexivity.
Qed.

Lemma before_nul_length (bytes : list ascii) :
  has_nul bytes = true ->
  (String.length (before_nul bytes) < List.length bytes)%nat.
Proof.
  induction bytes as [|b r IH]; [discriminate|].
  cbn [has_nul existsb before_nul List.length].
  destruct (Ascii.eqb b NUL); cbn [orb String.length]; [lia|].
  intros H. apply IH in H. lia.
Qed.

Lemma before_nul_length_le (bytes : list ascii) :
  (String.length (before_nul bytes) <= List.length bytes)%nat.
Proof.
  induction bytes as [|b r IH]; [reflexivity|].
  cbn [before_nul List.length].
  destruct (Ascii.eqb b NUL); cbn [String.length]; lia.
Qed.

Lemma string_of_list_length (l : list ascii) :
  String.length (string_of_list_ascii l) = List.length l.
Proof. induction l as [|x l IH]; cbn; [reflexivity | now rewrite IH]. Qed.

Lemma append_length (a b : string) :
  String.length (a ++ b) = (String.length a + String.length b)%nat.
Proof. induction a as [|x a IH]; cbn; [reflexivity | now rewrite IH]. Qed.

(* ================================================================== *)
(** ** The callbacks on arbitrary samples *)
(* ================================================================== *)

Lemma field_free (c : ascii) (name v : string) :
  Ascii.eqb "=" c = false ->
  occurs c name = false -> occurs c v = false ->
  occurs c (name ++ String "=" v) = false.
Proof.
  intros Hc Hn Hv. rewrite occurs_app, Hn. cbn [occurs orb].
  now rewrite Hc, Hv.
Qed.

Lemma tx_line_one_line (s : TrafficSample) : occurs newline (tx_line s) = false.
Proof.
  unfold tx_line. rewrite !occurs_app.
  rewrite !dec_unsigned_free by reflexivity. reflexivity.
Qed.

Lemma mem_line_one_line (s : MemorySample) : occurs newline (mem_line s) = false.
Proof.
  unfold mem_line. rewrite !occurs_app.
  rewrite !dec_unsigned_free by reflexivity. reflexivity.
Qed.

Lemma state_line_one_line (s : Z) : occurs newline (state_line s) = false.
Proof.
  unfold state_line. rewrite !occurs_app.
  rewrite !dec_int_free by reflexivity. reflexivity.
Qed.

Lemma parse_tx_line (s : TrafficSample) :
  parse_line (tx_line s) =
  Some ("NET", [("TX", dec_unsigned (cast_ull (up s)));
                ("RX", dec_unsigned (cast_ull (down s)))]).
Proof.
  change (tx_line s) with
    ("NET" ++ String ":"
       (("TX" ++ String "=" (dec_unsigned (cast_ull (up s)))) ++ String " "
        ("RX" ++ String "=" (dec_unsigned (cast_ull (down s)))))).
  unfold parse_line.
  rewrite break_at_app by reflexivity.
  rewrite split_on_app
    by (apply field_free; try reflexivity; now apply dec_unsigned_free).
  rewrite split_on_free;
    [| apply field_free; try reflexivity; now apply dec_unsigned_free
     | discriminate].
  cbn [map]. rewrite !key_value_field by reflexivity. reflexivity.
Qed.

Lemma parse_mem_line (s : MemorySample) :
  parse_line (mem_line s) =
  Some ("MEM", [("USE", dec_unsigned (cast_ull (inuse s)))]).
Proof.
  change (mem_line s) with
    ("MEM" ++ String ":" ("USE" ++ String "=" (dec_unsigned (cast_ull (inuse s))))).
  unfold parse_line.
  rewrite break_at_app by reflexivity.
  rewrite split_on_free;
    [| apply field_free; try reflexivity; now apply dec_unsigned_free
     | discriminate].
  cbn [map]. rewrite !key_value_field by reflexivity. reflexivity.
Qed.

Section Callbacks.

Variable pointer_text : Z -> string.

Lemma cb_tx_writes (s : TrafficSample) (c : Z) (out : string) :
  cb_tx pointer_text (Some s) c out = Some (tt, out ++ tx_line s ++ LINE).
Proof.
  unfold cb_tx, OUT, tx_line. cbn -[cast_ull]. unfold LINE.
  flatten. reflexivity.
Qed.

Lemma cb_mem_writes (s : MemorySample) (c : Z) (out : string) :
  cb_mem pointer_text (Some s) c out = Some (tt, out ++ mem_line s ++ LINE).
Proof.
  unfold cb_mem, OUT, mem_line. cbn -[cast_ull]. unfold LINE.
  flatten. reflexivity.
Qed.

Lemma cb_state_writes (s c : Z) (out : string) :
  cb_state pointer_text s c out = Some (tt, out ++ state_line s ++ LINE).
Proof.
  unfold cb_state, OUT, state_line. cbn. unfold LINE.
  flatten. reflexivity.
Qed.

(** The log callback reads two C strings: one from [level] on, one from
    [payload] on. *)
Lemma cb_log_writes (e : LogEntry) (c : Z) (out : string) :
  cb_log pointer_text (Some e) c out =
  match c_string (level_ptr e), c_string (payload_ptr e) with
  | Some lvl, Some pl => Some (tt, out ++ log_line lvl pl ++ LINE)
  | _, _ => None
  end.
Proof.
  unfold cb_log, OUT, log_line. cbn -[c_string].
  destruct (c_string (level_ptr e)) as [lvl|];
    destruct (c_string (payload_ptr e)) as [pl|]; cbn; try reflexivity.
  unfold LINE. flatten. reflexivity.
Qed.

End Callbacks.

Lemma line_alone (l : string) :
  occurs newline l = false -> lines (l ++ LINE) = [l].
Proof. intros H. exact (lines_cons l "" H). Qed.

Lemma same_line_same_text (a b out : string) :
  occurs newline a = false -> occurs newline b = false ->
  Some (tt, out ++ a ++ LINE) = Some (tt, out ++ b ++ LINE) -> a = b.
Proof.
  intros Ha Hb E.
  assert (out ++ a ++ LINE = out ++ b ++ LINE) as E' by congruence.
  apply append_cancel_l in E'. apply (f_equal lines) in E'.
  rewrite !line_alone in E' by assumption. congruence.
Qed.

Lemma complete_after_line (a : string) : complete (a ++ LINE) = true.
Proof.
  induction a as [|x a IH]; [reflexivity|].
  cbn [append]. destruct a as [|y a']; [reflexivity|exact IH].
Qed.

Section CallbackProperties.

Variable pointer_text : Z -> string.

(** X1. For every non-null sample the traffic callback appends exactly one
    line, [NET:TX=<up> RX=<down>] with both counters in decimal taken
    modulo 2^64; read back by position the line gives the tag NET and the
    fields TX and RX. The timestamp and the context are not printed. *)
Theorem cb_tx_line_reads_back (s : TrafficSample) (c : Z) (out : string) :
  cb_tx pointer_text (Some s) c out = Some (tt, out ++ tx_line s ++ LINE) /\
  lines (tx_line s ++ LINE) = [tx_line s] /\
  parse_line (tx_line s) =
    Some ("NET", [("TX", dec_unsigned (up s mod 2 ^ 64));
                  ("RX", dec_unsigned (down s mod 2 ^ 64))]).
Proof.
  split; [apply cb_tx_writes|].
  split; [apply line_alone, tx_line_one_line | apply parse_tx_line].
Qed.

(** X2. Two non-null traffic samples make the callback write the same
    bytes exactly when their upload counters agree modulo 2^64 and their
    download counters agree modulo 2^64. *)
Theorem cb_tx_output_determines_counters
    (s1 s2 : TrafficSample) (c1 c2 : Z) (out : string) :
  cb_tx pointer_text (Some s1) c1 out = cb_tx pointer_text (Some s2) c2 out
  <-> up s1 mod 2 ^ 64 = up s2 mod 2 ^ 64 /\
      down s1 mod 2 ^ 64 = down s2 mod 2 ^ 64.
Proof.
  rewrite !cb_tx_writes. split.
  - intros E.
    apply same_line_same_text in E; try apply tx_line_one_line.
    apply (f_equal parse_line) in E. rewrite !parse_tx_line in E.
    injection E as Hu Hd.
    split; apply dec_unsigned_inj; try apply cast_ull_range; assumption.
  - intros [Hu Hd]. unfold tx_line, cast_ull. now rewrite Hu, Hd.
Qed.

(** X3. For every non-null sample the memory callback appends exactly one
    line, [MEM:USE=<inuse>] with the value in decimal taken modulo 2^64,
    which reads back as the tag MEM and the field USE. *)
Theorem cb_mem_line_reads_back (s : MemorySample) (c : Z) (out : string) :
  cb_mem pointer_text (Some s) c out = Some (tt, out ++ mem_line s ++ LINE) /\
  lines (mem_line s ++ LINE) = [mem_line s] /\
  parse_line (mem_line s) =
    Some ("MEM", [("USE", dec_unsigned (inuse s mod 2 ^ 64))]).
Proof.
  split; [apply cb_mem_writes|].
  split; [apply line_alone, mem_line_one_line | apply parse_mem_line].
Qed.

(** X4. The state-change callback writes the same bytes for two states
    exactly when the states are equal: the STATE line identifies the
    state, whatever the context argument. *)
Theorem cb_state_output_determines_state (s1 s2 c1 c2 : Z) (out : string) :
  cb_state pointer_text s1 c1 out = cb_state pointer_text s2 c2 out
  <-> s1 = s2.
Proof.
  rewrite !cb_state_writes. split.
  - intros E.
    apply same_line_same_text in E; try apply state_line_one_line.
    unfold state_line in E. apply append_cancel_l in E.
    now apply dec_int_inj.
  - now intros ->.
Qed.

(** X5. On a non-null entry the log callback is defined exactly when the
    payload holds a NUL byte: then both [%s] reads end inside the entry,
    otherwise the read of the payload runs past it. *)
Theorem cb_log_defined_iff_payload_terminated
    (e : LogEntry) (c : Z) (out : string) :
  cb_log pointer_text (Some e) c out <> None
  <-> has_nul (payload e) = true.
Proof.
  rewrite cb_log_writes. unfold level_ptr, payload_ptr.
  rewrite !c_string_spec, has_nul_app.
  destruct (has_nul (payload e)); rewrite ?orb_true_r, ?orb_false_r.
  - split; [reflexivity | discriminate].
  - destruct (has_nul (level e)); split; congruence.
Qed.

(** X6. When the level and the payload each hold a NUL byte, the log
    callback appends [LOG:<level>:<payload>] and a newline, each text
    being the bytes in front of its first NUL. *)
Theorem cb_log_prints_terminated_texts
    (e : LogEntry) (c : Z) (out : string)
    (Hlevel : has_nul (level e) = true)
    (Hpayload : has_nul (payload e) = true) :
  cb_log pointer_text (Some e) c out =
  Some (tt, out ++ "LOG:" ++ before_nul (level e) ++ ":"
                ++ before_nul (payload e) ++ LINE).
Proof.
  rewrite cb_log_writes. unfold level_ptr, payload_ptr.
  rewrite !c_string_spec, has_nul_app, Hlevel, Hpayload, before_nul_app, Hlevel.
  cbn [orb]. unfold log_line. flatten. reflexivity.
Qed.

(** X7. When the level fills its buffer without a NUL byte, the level the
    log callback prints runs on into the payload: all bytes of the level
    followed by the payload text, before the colon and the payload text
    itself. *)
Theorem cb_log_unterminated_level_runs_into_payload
    (e : LogEntry) (c : Z) (out : string)
    (Hlevel : has_nul (level e) = false)
    (Hpayload : has_nul (payload e) = true) :
  cb_log pointer_text (Some e) c out =
  Some (tt, out ++ "LOG:" ++ string_of_list_ascii (level e)
                ++ before_nul (payload e) ++ ":"
                ++ before_nul (payload e) ++ LINE).
Proof.
  rewrite cb_log_writes. unfold level_ptr, payload_ptr.
  rewrite !c_string_spec, has_nul_app, Hlevel, Hpayload, before_nul_app, Hlevel.
  cbn [orb]. unfold log_line. flatten. reflexivity.
Qed.

(** X8. The log callback copies its texts unescaped: what it writes for
    an entry is a single line exactly when neither the printed level nor
    the printed payload holds a newline. *)
Theorem cb_log_single_line_iff
    (e : LogEntry) (c : Z)
    (Hpayload : has_nul (payload e) = true) :
  exists text,
    cb_log pointer_text (Some e) c "" = Some (tt, text) /\
    (List.length (lines text) = 1%nat <->
     occurs newline (before_nul (level e ++ payload e)) = false /\
     occurs newline (before_nul (payload e)) = false).
Proof.
  exists (log_line (before_nul (level e ++ payload e))
                   (before_nul (payload e)) ++ LINE).
  split.
  - rewrite cb_log_writes. unfold level_ptr, payload_ptr.
    rewrite !c_string_spec, has_nul_app, Hpayload, orb_true_r.
    reflexivity.
  - unfold lines, LINE. rewrite one_piece_iff.
    unfold log_line. rewrite !occurs_app.
    change (occurs newline "LOG:") with false.
    change (occurs newline ":") with false.
    cbn [orb]. rewrite orb_false_iff. reflexivity.
Qed.

(** X9. With the buffers at their declared capacities (16 bytes of level,
    512 of payload), a defined call of the log callback writes at most
    1044 bytes. *)
Theorem cb_log_output_bound
    (e : LogEntry) (c : Z) (text : string)
    (Hlevel : List.length (level e) = 16%nat)
    (Hpayload : List.length (payload e) = 512%nat)
    (Hrun : cb_log pointer_text (Some e) c "" = Some (tt, text)) :
  (String.length text <= 1044)%nat.
Proof.
  rewrite cb_log_writes in Hrun. unfold level_ptr, payload_ptr in Hrun.
  rewrite !c_string_spec, has_nul_app in Hrun.
  destruct (has_nul (payload e)) eqn:Hp;
    [|rewrite orb_false_r in Hrun; destruct (has_nul (level e)); discriminate].
  rewrite orb_true_r in Hrun.
  assert (text = log_line (before_nul (level e ++ payload e))
                          (before_nul (payload e)) ++ LINE) as ->
    by (cbn [append] in Hrun; congruence).
  pose proof (before_nul_length (payload e) Hp) as Hpl.
  assert (has_nul (level e ++ payload e) = true) as Hboth
    by (rewrite has_nul_app, Hp; apply orb_true_r).
  pose proof (before_nul_length _ Hboth) as Hll.
  rewrite length_app in Hll.
  unfold log_line. rewrite !append_length. cbn [String.length LINE]. lia.
Qed.

(** X10. When standard output holds whole lines, a call of the traffic,
    memory or state-change callback adds its line after them: the lines
    written before are unchanged and the new line is last. *)
Theorem numeric_callbacks_add_one_line
    (tx : TrafficSample) (mem : MemorySample) (s c : Z) (out : string)
    (Hout : complete out = true) :
  (exists out', cb_tx pointer_text (Some tx) c out = Some (tt, out') /\
                lines out' = (lines out ++ [tx_line tx])%list) /\
  (exists out', cb_mem pointer_text (Some mem) c out = Some (tt, out') /\
                lines out' = (lines out ++ [mem_line mem])%list) /\
  (exists out', cb_state pointer_text s c out = Some (tt, out') /\
                lines out' = (lines out ++ [state_line s])%list).
Proof.
  split; [|split]; eexists;
    (split; [first [apply cb_tx_writes | apply cb_mem_writes
                   | apply cb_state_writes] |]);
    rewrite lines_app_complete by exact Hout; f_equal; apply line_alone.
  - apply tx_line_one_line.
  - apply mem_line_one_line.
  - apply state_line_one_line.
Qed.

(** X11. Every call keeps standard output made of whole lines: after any
    of the four callbacks (NULL sample or not, when the call is defined)
    and after [main], the output written so far is again empty or ended
    by a newline. *)
Theorem calls_keep_output_complete
    (out : string) (Hout : complete out = true) :
  (forall s c out', cb_tx pointer_text s c out = Some (tt, out') ->
                    complete out' = true) /\
  (forall s c out', cb_mem pointer_text s c out = Some (tt, out') ->
                    complete out' = true) /\
  (forall s c out', cb_log pointer_text s c out = Some (tt, out') ->
                    complete out' = true) /\
  (forall s c out', cb_state pointer_text s c out = Some (tt, out') ->
                    complete out' = true) /\
  (forall k t l r out', main pointer_text k t l out = Some (r, out') ->
                        complete out' = true).
Proof.
  assert (forall a b, complete (a ++ b ++ LINE) = true) as Hline
    by (intros a b; rewrite <- append_assoc; apply complete_after_line).
  repeat split.
  - intros [s|] c out' H.
    + rewrite cb_tx_writes in H.
      replace out' with (out ++ tx_line s ++ LINE) by congruence. apply Hline.
    + cbv [cb_tx cb_mem cb_log ret] in H.
      replace out' with out by congruence. exact Hout.
  - intros [s|] c out' H.
    + rewrite cb_mem_writes in H.
      replace out' with (out ++ mem_line s ++ LINE) by congruence. apply Hline.
    + cbv [cb_tx cb_mem cb_log ret] in H.
      replace out' with out by congruence. exact Hout.
  - intros [e|] c out' H.
    + rewrite cb_log_writes in H.
      destruct (c_string (level_ptr e)) as [lvl|]; [|discriminate].
      destruct (c_string (payload_ptr e)) as [pl|]; [|discriminate].
      replace out' with (out ++ log_line lvl pl ++ LINE) by congruence.
      apply Hline.
    + cbv [cb_tx cb_mem cb_log ret] in H.
      replace out' with out by congruence. exact Hout.
  - intros s c out' H.
    rewrite cb_state_writes in H.
    replace out' with (out ++ state_line s ++ LINE) by congruence. apply Hline.
  - intros k t l r out' H.
    rewrite main_writes in H.
    match type of H with
    | Some (_, ?w) = _ => replace out' with w by congruence
    end.
    rewrite <- !append_assoc. apply complete_after_line.
Qed.

End CallbackProperties.

(* ================================================================== *)
(** ** What the assertions and the report cover *)
(* ================================================================== *)

Lemma parse_size_line (t : Target) :
  parse_line (size_line t) =
  Some ("SIZE", [("ver", dec_unsigned (t MihomoVersion));
                 ("tx", dec_unsigned (t MihomoTrafficSample));
                 ("mem", dec_unsigned (t MihomoMemorySample));
                 ("log", dec_unsigned (t MihomoLogEntry));
                 ("conn", dec_unsigned (t MihomoConnection));
                 ("opt", dec_unsigned (t MihomoInitOptions))]).
Proof.
  change (size_line t) with
    ("SIZE" ++ String ":"
       (("ver" ++ String "=" (dec_unsigned (t MihomoVersion))) ++ String " "
       (("tx" ++ String "=" (dec_unsigned (t MihomoTrafficSample))) ++ String " "
       (("mem" ++ String "=" (dec_unsigned (t MihomoMemorySample))) ++ String " "
       (("log" ++ String "=" (dec_unsigned (t MihomoLogEntry))) ++ String " "
       (("conn" ++ String "=" (dec_unsigned (t MihomoConnection))) ++ String " "
        ("opt" ++ String "=" (dec_unsigned (t MihomoInitOptions))))))))).
  unfold parse_line.
  rewrite break_at_app by reflexivity.
  rewrite !split_on_app
    by (apply field_free; try reflexivity; now apply dec_unsigned_free).
  rewrite split_on_free;
    [| apply field_free; try reflexivity; now apply dec_unsigned_free
     | discriminate].
  cbn [map]. rewrite !key_value_field by reflexivity. reflexivity.
Qed.

Section ReportCoverage.

Variable pointer_text : Z -> string.

Lemma main_second_line (k : Registry) (t : Target) (l : LoadMap) :
  report_line 1 (main pointer_text k t l "") = Some (size_line t).
Proof.
  destruct (main_first_lines pointer_text k t l) as (out & rest & Hrun & Hl).
  rewrite Hrun. cbn [report_line]. now rewrite Hl.
Qed.

Lemma main_third_line (k : Registry) (t : Target) (l : LoadMap) :
  report_line 2 (main pointer_text k t l "") = Some (enum_line k).
Proof.
  destruct (main_first_lines pointer_text k t l) as (out & rest & Hrun & Hl).
  rewrite Hrun. cbn [report_line]. now rewrite Hl.
Qed.

(** X12. With one-byte characters, naturally aligned 2-byte integers and
    8-byte integers aligned to 1, 2, 4 or 8, the first four assertions
    hold whatever that alignment is, and the assertion on the connection
    struct holds exactly when it is 8: the build is accepted if and only
    if 8-byte integers are aligned to 8. *)
Theorem assertions_pin_uint64_alignment (dm : Layout.DataModel) (a : Z)
    (Hchar : Layout.scalar_size dm Layout.Char = 1)
    (Hchar_al : Layout.scalar_align dm Layout.Char = 1)
    (Hshort : Layout.scalar_size dm Layout.UInt16 = 2)
    (Hshort_al : Layout.scalar_align dm Layout.UInt16 = 2)
    (Hquad : Layout.scalar_size dm Layout.UInt64 = 8)
    (Hquad_al : Layout.scalar_align dm Layout.UInt64 = a)
    (Ha : In a [1; 2; 4; 8]) :
  static_assertions (target_of dm) =
    [1; 1; 1; 1; if (a =? 8)%Z then 1 else -1] /\
  (compiles (target_of dm) = true <-> a = 8).
Proof.
  assert (static_assertions (target_of dm) =
          [1; 1; 1; 1; if (a =? 8)%Z then 1 else -1]) as Hs.
  { unfold static_assertions, target_of, Layout.struct_sizeof.
    cbn [Layout.fields_of fold_left Layout.place Layout.sizeof
         Layout.alignof snd].
    rewrite Hchar, Hchar_al, Hshort, Hshort_al, Hquad, Hquad_al.
    cbn [In] in Ha.
    destruct Ha as [<-|[<-|[<-|[<-|[]]]]]; reflexivity. }
  split; [exact Hs|].
  unfold compiles. rewrite Hs.
  cbn [In] in Ha.
  destruct Ha as [<-|[<-|[<-|[<-|[]]]]]; cbn; split; congruence.
Qed.

(** X13. The sizes of the connection list and of the config buffer are
    neither asserted nor printed: two targets that agree on every other
    struct are built alike and write the same report. *)
Theorem unprinted_structs_do_not_matter
    (k : Registry) (t t' : Target) (l : LoadMap)
    (Hagree : forall e, e <> MihomoConnections -> e <> MihomoConfigBuffer ->
                        t e = t' e) :
  run_process pointer_text k t l = run_process pointer_text k t' l.
Proof.
  unfold run_process, compiles, static_assertions.
  rewrite !main_report. unfold size_line.
  rewrite (Hagree MihomoVersion), (Hagree MihomoTrafficSample),
    (Hagree MihomoMemorySample), (Hagree MihomoLogEntry),
    (Hagree MihomoConnection), (Hagree MihomoInitOptions) by discriminate.
  reflexivity.
Qed.

(** X14. Read back by position, the second line of the report gives the
    tag SIZE and six fields, ver, tx, mem, log, conn and opt, carrying the
    sizes of the version, traffic sample, memory sample, log entry,
    connection and init options in decimal. *)
Theorem size_line_reads_back (k : Registry) (t : Target) (l : LoadMap) :
  exists line,
    report_line 1 (main pointer_text k t l "") = Some line /\
    parse_line line =
      Some ("SIZE", [("ver", dec_unsigned (t MihomoVersion));
                     ("tx", dec_unsigned (t MihomoTrafficSample));
                     ("mem", dec_unsigned (t MihomoMemorySample));
                     ("log", dec_unsigned (t MihomoLogEntry));
                     ("conn", dec_unsigned (t MihomoConnection));
                     ("opt", dec_unsigned (t MihomoInitOptions))]).
Proof.
  exists (size_line t). split; [apply main_second_line | apply parse_size_line].
Qed.

(** X15. The sizes line determines the six sizes it prints: two runs,
    with whatever constants and load addresses, print the same second
    line exactly when their targets give the same (non-negative) size to
    each of the six printed structs. *)
Theorem size_line_determines_sizes
    (k k' : Registry) (t t' : Target) (l l' : LoadMap)
    (Hsizes : forall e, In e printed_entities -> 0 <= t e /\ 0 <= t' e) :
  report_line 1 (main pointer_text k t l "") =
  report_line 1 (main pointer_text k' t' l' "")
  <-> forall e, In e printed_entities -> t e = t' e.
Proof.
  rewrite !main_second_line. split.
  - intros E. assert (size_line t = size_line t') as E' by congruence.
    apply (f_equal parse_line) in E'. rewrite !parse_size_line in E'.
    injection E' as Hv Ht Hm Hl Hc Ho.
    intros e He.
    destruct (Hsizes e He) as [Hn Hn'].
    apply dec_unsigned_inj; try assumption.
    cbn [printed_entities In] in He.
    intuition (subst e; assumption).
  - intros H. unfold size_line.
    rewrite (H MihomoVersion), (H MihomoTrafficSample),
      (H MihomoMemorySample), (H MihomoLogEntry),
      (H MihomoConnection), (H MihomoInitOptions)
      by (cbn; tauto).
    reflexivity.
Qed.

(** X16. The enum line determines the four constants it prints: two runs
    print the same third line exactly when "ok", "init error", "stopped"
    and "running" have the same values in both. *)
Theorem enum_line_determines_constants
    (k k' : Registry) (t t' : Target) (l l' : LoadMap) :
  report_line 2 (main pointer_text k t l "") =
  report_line 2 (main pointer_text k' t' l' "")
  <-> MIHOMO_OK k = MIHOMO_OK k' /\
      MIHOMO_ERR_INIT k = MIHOMO_ERR_INIT k' /\
      MIHOMO_STATE_STOPPED k = MIHOMO_STATE_STOPPED k' /\
      MIHOMO_STATE_RUNNING k = MIHOMO_STATE_RUNNING k'.
Proof.
  rewrite !main_third_line. split.
  - intros E. assert (enum_line k = enum_line k') as E' by congruence.
    apply (f_equal parse_line) in E'. rewrite !parse_enum_line in E'.
    injection E' as Hok Hinit Hhalt Hrun.
    repeat split; now apply dec_int_inj.
  - intros (Hok & Hinit & Hhalt & Hrun). unfold enum_line.
    now rewrite Hok, Hinit, Hhalt, Hrun.
Qed.

(** X17. When the text of a pointer holds no newline and standard output
    holds whole lines, [main] adds its five lines after them and leaves
    the earlier lines as they were. *)
Theorem main_adds_five_lines
    (Hp : forall a, occurs newline (pointer_text a) = false)
    (k : Registry) (t : Target) (l : LoadMap) (out : string)
    (Hout : complete out = true) :
  exists out',
    main pointer_text k t l out = Some (0, out') /\
    lines out' =
      (lines out ++
       ["MIHOMO:ABI"; size_line t; enum_line k;
        cbptr_line pointer_text l; "DECL:link"])%list.
Proof.
  eexists. split; [apply main_writes|].
  rewrite lines_app_complete by exact Hout. f_equal.
  rewrite (lines_cons "MIHOMO:ABI") by reflexivity.
  rewrite lines_cons by apply size_line_one_line.
  rewrite lines_cons by apply enum_line_one_line.
  rewrite lines_cons.
  - reflexivity.
  - unfold cbptr_line. rewrite !occurs_app, !Hp. reflexivity.
Qed.

End ReportCoverage.

(** X18. With pointers printed as [0x] and lower-case hexadecimal, two
    runs of one build write byte-identical reports exactly when each of
    the four callbacks is loaded at the same (non-negative) address in
    both. *)
Theorem hex_report_identical_iff_same_addresses
    (k : Registry) (t : Target) (l1 l2 : LoadMap)
    (Haddr : forall s, 0 <= l1 s /\ 0 <= l2 s) :
  main hex_pointer k t l1 "" = main hex_pointer k t l2 ""
  <-> forall s, l1 s = l2 s.
Proof.
  split.
  - intros E s.
    apply hex_pointer_inj; try apply Haddr.
    apply (same_report_same_pointer_text hex_pointer
             hex_pointer_one_line
             (fun a => hex_pointer_free " " a eq_refl) k t l1 l2 E).
  - intros H. rewrite !main_report. unfold cbptr_line.
    now rewrite !H.
Qed.

(* ================================================================== *)
(** ** Concrete instances of the conditional statements *)
(* ================================================================== *)

Lemma cb_log_prints_terminated_texts_witness :
  has_nul (level terminated_entry) = true /\
  has_nul (payload terminated_entry) = true /\
  cb_log hex_pointer (Some terminated_entry) 0 "" =
    Some (tt, "" ++ "LOG:" ++ before_nul (level terminated_entry) ++ ":"
                 ++ before_nul (payload terminated_entry) ++ LINE).
Proof.
  split; [reflexivity|]. split; [reflexivity|].
  apply (cb_log_prints_terminated_texts
           hex_pointer terminated_entry 0 "" eq_refl eq_refl).
Defined.

Lemma cb_log_unterminated_level_witness :
  has_nul (level unterminated_level_entry) = false /\
  has_nul (payload unterminated_level_entry) = true /\
  cb_log hex_pointer (Some unterminated_level_entry) 0 "" =
    Some (tt, "" ++ "LOG:"
                 ++ string_of_list_ascii (level unterminated_level_entry)
                 ++ before_nul (payload unterminated_level_entry) ++ ":"
                 ++ before_nul (payload unterminated_level_entry) ++ LINE).
Proof.
  split; [reflexivity|]. split; [reflexivity|].
  apply (cb_log_unterminated_level_runs_into_payload
           hex_pointer unterminated_level_entry 0 "" eq_refl eq_refl).
Defined.

Lemma cb_log_single_line_witness :
  has_nul (payload terminated_entry) = true /\
  exists text,
    cb_log hex_pointer (Some terminated_entry) 0 "" = Some (tt, text) /\
    (List.length (lines text) = 1%nat <->
     occurs newline
       (before_nul (level terminated_entry ++ payload terminated_entry)) = false /\
     occurs newline (before_nul (payload terminated_entry)) = false).
Proof.
  split; [reflexivity|].
  apply (cb_log_single_line_iff hex_pointer terminated_entry 0 eq_refl).
Defined.

Lemma cb_log_output_bound_witness :
  List.length (level terminated_entry) = 16%nat /\
  List.length (payload terminated_entry) = 512%nat /\
  (String.length (log_line "info" "started" ++ LINE) <= 1044)%nat.
Proof.
  split; [reflexivity|]. split; [reflexivity|].
  apply (cb_log_output_bound hex_pointer terminated_entry 0
           (log_line "info" "started" ++ LINE) eq_refl eq_refl eq_refl).
Defined.

Lemma numeric_callbacks_add_one_line_witness :
  complete (state_line 2 ++ LINE) = true /\
  exists out',
    cb_state hex_pointer 0 0 (state_line 2 ++ LINE) = Some (tt, out') /\
    lines out' = (lines (state_line 2 ++ LINE) ++ [state_line 0])%list.
Proof.
  split; [reflexivity|].
  apply (numeric_callbacks_add_one_line hex_pointer
           (traffic_1000_2000 0) {| mem_timestamp_ms := 0; inuse := 4096 |}
           0 0 (state_line 2 ++ LINE) eq_refl).
Defined.

Lemma calls_keep_output_complete_witness :
  complete "" = true /\
  forall s c out',
    cb_state hex_pointer s c "" = Some (tt, out') -> complete out' = true.
Proof.
  split; [reflexivity|].
  apply (calls_keep_output_complete hex_pointer "" eq_refl).
Defined.

Lemma assertions_pin_uint64_alignment_witness :
  In 4 [1; 2; 4; 8] /\
  static_assertions ilp32_align4 = [1; 1; 1; 1; -1] /\
  (compiles ilp32_align4 = true <-> 4 = 8).
Proof.
  assert (In 4 [1; 2; 4; 8]) as Ha by (cbn; tauto).
  split; [exact Ha|].
  apply (assertions_pin_uint64_alignment Layout.ILP32_align4 4
           eq_refl eq_refl eq_refl eq_refl eq_refl eq_refl Ha).
Defined.

Lemma unprinted_structs_witness :
  lp64 MihomoConnections <> lp64_other_lists MihomoConnections /\
  run_process hex_pointer mihomo_h lp64 sample_load =
  run_process hex_pointer mihomo_h lp64_other_lists sample_load.
Proof.
  split; [vm_compute; discriminate|].
  apply (unprinted_structs_do_not_matter hex_pointer mihomo_h
           lp64 lp64_other_lists sample_load).
  intros [] H1 H2; try reflexivity; congruence.
Defined.

Lemma size_line_determines_sizes_witness :
  report_line 1 (main hex_pointer mihomo_h lp64 sample_load "") =
  report_line 1 (main hex_pointer mihomo_h lp64_other_lists slid_load "")
  <-> forall e, In e printed_entities -> lp64 e = lp64_other_lists e.
Proof.
  apply (size_line_determines_sizes hex_pointer mihomo_h mihomo_h
           lp64 lp64_other_lists sample_load slid_load).
  intros e He. cbn [printed_entities In] in He.
  destruct He as [<-|[<-|[<-|[<-|[<-|[<-|[]]]]]]];
    vm_compute; split; discriminate.
Defined.

Lemma main_adds_five_lines_witness :
  complete (state_line 2 ++ LINE) = true /\
  exists out',
    main hex_pointer mihomo_h lp64 sample_load (state_line 2 ++ LINE)
      = Some (0, out') /\
    lines out' =
      (lines (state_line 2 ++ LINE) ++
       ["MIHOMO:ABI"; size_line lp64; enum_line mihomo_h;
        cbptr_line hex_pointer sample_load; "DECL:link"])%list.
Proof.
  split; [reflexivity|].
  apply (main_adds_five_lines hex_pointer hex_pointer_one_line
           mihomo_h lp64 sample_load (state_line 2 ++ LINE) eq_refl).
Defined.

Lemma hex_report_witness :
  (forall s, 0 <= sample_load s /\ 0 <= slid_load s) /\
  (main hex_pointer mihomo_h lp64 sample_load "" =
   main hex_pointer mihomo_h lp64 slid_load ""
   <-> forall s, sample_load s = slid_load s).
Proof.
  assert (forall s, 0 <= sample_load s /\ 0 <= slid_load s) as Haddr
    by (intros []; vm_compute; split; discriminate).
  split; [exact Haddr|].
  apply (hex_report_identical_iff_same_addresses
           mihomo_h lp64 sample_load slid_load Haddr).
Defined.
